(** * A shallow embedding of coolprop_oop.py (StateHA and StateProps)

    The Python objects are modelled as an attribute dictionary ([attrs],
    the instance [__dict__]) together with the [_constraints_set] (a Python
    set, kept as a duplicate-free list).  Every method runs in a small
    state-and-exception monad [M]: a raised exception keeps the object as it
    was at the raise point, so mutations made before a raise survive, as in
    Python.  Python numbers (int and float) are rationals [Q]; the external
    CoolProp functions [HAPropsSI] and [PropsSI] are parameters (Section
    variables) of the definitions that call them. *)

From Stdlib Require Import QArith Qabs Bool List.
From stdpp Require Import base gmap strings sorting.
Import ListNotations.

Open Scope Q_scope.

(** ** Python values and exceptions *)

Inductive pyval :=
| PNone
| PNum (q : Q)          (* int or float *)
| PStr (s : string).

Inductive exc :=
| TypeError (msg : string)
| ValueError (msg : string)
| KeyError (key : string)
| AttributeError (name : string)
| IndexError
| ZeroDivisionError.

(** [str(e)] as used in the f-strings that re-raise an exception. *)
Definition exc_str (e : exc) : string :=
  match e with
  | TypeError m | ValueError m => m
  | KeyError k => ("'" ++ k ++ "'")%string
  | AttributeError n => n
  | IndexError => "list index out of range"
  | ZeroDivisionError => "float division by zero"
  end.

(** ** Objects and the state/exception monad *)

Record obj := mk_obj {
  attrs : gmap string pyval;
  cset : list string
}.

Definition M (A : Type) : Type := obj -> (exc + A) * obj.

Definition ret {A} (a : A) : M A := fun s => (inr a, s).
Definition bind {A B} (m : M A) (k : A -> M B) : M B :=
  fun s => match m s with
           | (inl e, s') => (inl e, s')
           | (inr a, s') => k a s'
           end.
Definition raise {A} (e : exc) : M A := fun s => (inl e, s).
(** [try: m except Exception as e: h(e)] *)
Definition try_except {A} (m : M A) (h : exc -> M A) : M A :=
  fun s => match m s with
           | (inl e, s') => h e s'
           | (inr a, s') => (inr a, s')
           end.
Definition get_obj : M obj := fun s => (inr s, s).
Definition lift {A} (r : exc + A) : M A := fun s => (r, s).

Notation "'let*' x ':=' m 'in' k" := (bind m (fun x => k))
  (at level 200, x name, m at level 100, k at level 200).
Notation "m ;; k" := (bind m (fun _ => k))
  (at level 100, k at level 200, right associativity).

(** [getattr(self, k)] and [setattr(self, k, v)] *)
Definition getattr (k : string) : M pyval :=
  fun s => match attrs s !! k with
           | Some v => (inr v, s)
           | None => (inl (AttributeError k), s)
           end.
Definition setattr (k : string) (v : pyval) : M unit :=
  fun s => (inr tt, mk_obj (<[k := v]> (attrs s)) (cset s)).

(** Python sets of property names. *)
Definition mem (x : string) (l : list string) : bool :=
  existsb (String.eqb x) l.
Definition set_add (x : string) (l : list string) : list string :=
  if mem x l then l else l ++ [x].

(** [self._constraints_set.add(x)] *)
Definition cs_add (x : string) : M unit :=
  fun s => (inr tt, mk_obj (attrs s) (set_add x (cset s))).

(** Comparisons and arithmetic on Python numbers. *)
Definition qlt (a b : Q) : bool := match Qcompare a b with Lt => true | _ => false end.
Definition qle (a b : Q) : bool := negb (qlt b a).

(** [x - c], [x + c] and [a / b] on a Python value: [None] operands raise
    TypeError, a zero divisor raises ZeroDivisionError. *)
Definition py_sub (x : pyval) (c : Q) : M pyval :=
  match x with
  | PNum q => ret (PNum (q - c))
  | _ => raise (TypeError "unsupported operand type(s) for -")
  end.
Definition py_add (x : pyval) (c : Q) : M pyval :=
  match x with
  | PNum q => ret (PNum (q + c))
  | _ => raise (TypeError "unsupported operand type(s) for +")
  end.
Definition py_div (a : Q) (x : pyval) : M pyval :=
  match x with
  | PNum q => if Qeq_bool q 0 then raise ZeroDivisionError else ret (PNum (a / q))
  | _ => raise (TypeError "unsupported operand type(s) for /")
  end.

(** [self._fluid is None] (also true when the attribute is missing). *)
Definition fluid_is_none (s : obj) : bool :=
  match attrs s !! "_fluid" with
  | None | Some PNone => true
  | Some _ => false
  end.

(** Python truthiness, for [not self._fluid]. *)
Definition truthy (v : pyval) : bool :=
  match v with
  | PNone => false
  | PNum q => negb (Qeq_bool q 0)
  | PStr s => negb (String.eqb s "")
  end.

(** Association-list lookup: [d[k]] raising KeyError. *)
Fixpoint assoc (k : string) (d : list (string * string)) : option string :=
  match d with
  | [] => None
  | (k', v) :: d' => if String.eqb k k' then Some v else assoc k d'
  end.
Definition dict_get (d : list (string * string)) (k : string) : M string :=
  match assoc k d with Some v => ret v | None => raise (KeyError k) end.

(** [for x in l: ...] collecting results (a [props.extend] loop). *)
Fixpoint mapM {A B} (f : A -> M B) (l : list A) : M (list B) :=
  match l with
  | [] => ret []
  | x :: l' => let* y := f x in let* ys := mapM f l' in ret (y :: ys)
  end.

(** * StateHA *)

Inductive ha_prop :=
| HA_tempk | HA_tempc | HA_press | HA_relhum | HA_humrat | HA_wetbulb
| HA_dewpoint | HA_vol | HA_enthalpy | HA_entropy | HA_density | HA_cp
| HA_viscosity | HA_conductivity | HA_prandtl.

Definition ha_props : list ha_prop :=
  [HA_tempk; HA_tempc; HA_press; HA_relhum; HA_humrat; HA_wetbulb;
   HA_dewpoint; HA_vol; HA_enthalpy; HA_entropy; HA_density; HA_cp;
   HA_viscosity; HA_conductivity; HA_prandtl].

Definition ha_name (p : ha_prop) : string :=
  match p with
  | HA_tempk => "tempk" | HA_tempc => "tempc" | HA_press => "press"
  | HA_relhum => "relhum" | HA_humrat => "humrat" | HA_wetbulb => "wetbulb"
  | HA_dewpoint => "dewpoint" | HA_vol => "vol" | HA_enthalpy => "enthalpy"
  | HA_entropy => "entropy" | HA_density => "density" | HA_cp => "cp"
  | HA_viscosity => "viscosity" | HA_conductivity => "conductivity"
  | HA_prandtl => "prandtl"
  end.

(** [StateHA._prop_map] *)
Definition StateHA_prop_map : list (string * string) :=
  [("tempk", "T"); ("tempc", "T"); ("press", "P"); ("humrat", "W");
   ("wetbulb", "B"); ("relhum", "R"); ("dewpoint", "D"); ("vol", "V");
   ("enthalpy", "H"); ("entropy", "S"); ("density", "D"); ("cp", "C");
   ("viscosity", "M"); ("conductivity", "K"); ("prandtl", "L")].

(** [StateHA.__init__(props=None)] *)
Definition StateHA_init : obj :=
  mk_obj (list_to_map
            (map (fun p => ("_" ++ ha_name p, PNone)%string) ha_props))
         [].

(** The property-specific range checks of [validate_input_ha]; [Some msg]
    is the ValueError raised. *)
Definition ha_range_check (p : ha_prop) (v : Q) : option string :=
  let n := ha_name p in
  match p with
  | HA_tempk | HA_wetbulb | HA_dewpoint =>
      if qle v 0 then Some (n ++ " must be above absolute zero")%string
      else if qlt (47315 # 100) v then Some (n ++ " exceeding reasonable range (> 200 C)")%string
      else None
  | HA_tempc =>
      if qlt v (-27315 # 100) then Some "Temperature cannot be below absolute zero"
      else if qlt 200 v then Some "Temperature exceeding reasonable range (> 200 C)"
      else None
  | HA_press =>
      if qle v 0 then Some "Pressure must be positive"
      else if qlt v 1000 then Some "Pressure below reasonable range (< 1 kPa)"
      else if qlt 10000000 v then Some "Pressure exceeding reasonable range (> 100 bar)"
      else None
  | HA_relhum =>
      if qlt v 0 then Some "Relative humidity cannot be negative"
      else if qlt 1 v then Some "Relative humidity cannot exceed 1 (100%)"
      else None
  | HA_humrat =>
      if qlt v 0 then Some "Humidity ratio cannot be negative"
      else if qlt 1 v then Some "Humidity ratio exceeding reasonable range (> 1 kg/kg)"
      else None
  | HA_vol =>
      if qle v 0 then Some "Specific volume must be positive"
      else if qlt 1000 v then Some "Specific volume exceeding reasonable range (> 1000 m3/kg)"
      else None
  | HA_enthalpy =>
      if qlt 10000000 (Qabs v) then Some "Enthalpy exceeding reasonable range (|h| > 10,000,000 J/kg)"
      else None
  | HA_entropy =>
      if qlt 100000 (Qabs v) then Some "Entropy exceeding reasonable range (|s| > 100,000 J/kg-K)"
      else None
  | HA_density =>
      if qle v 0 then Some "Density must be positive"
      else if qlt 50 v then Some "Density exceeding reasonable range (> 50 kg/m3)"
      else None
  | HA_cp =>
      if qle v 0 then Some "Specific heat capacity must be positive"
      else if qlt 10000 v then Some "Specific heat capacity exceeding reasonable range (> 10,000 J/kg-K)"
      else None
  | HA_viscosity =>
      if qle v 0 then Some "Viscosity must be positive"
      else if qlt 1 v then Some "Viscosity exceeding reasonable range (> 1 Pa s)"
      else None
  | HA_conductivity =>
      if qle v 0 then Some "Thermal conductivity must be positive"
      else if qlt 1 v then Some "Thermal conductivity exceeding reasonable range (> 1 W/m-K)"
      else None
  | HA_prandtl =>
      if qle v 0 then Some "Prandtl number must be positive"
      else if qlt 1000 v then Some "Prandtl number exceeding reasonable range (> 1000)"
      else None
  end.

(** The decorator [validate_input_ha]: type check, range check, then the
    wrapped setter. *)
Definition validate_input_ha (p : ha_prop) (func : Q -> M unit) (value : pyval) : M unit :=
  match value with
  | PNum v =>
      match ha_range_check p v with
      | Some msg => raise (ValueError msg)
      | None => func v
      end
  | _ => raise (TypeError (ha_name p ++ " must be a number")%string)
  end.

(** The bodies of the [StateHA] property setters. *)
Definition StateHA_setter_body (p : ha_prop) (value : Q) : M unit :=
  match p with
  | HA_tempc =>
      setattr "_tempc" (PNum value) ;;
      setattr "_tempk" (PNum (value + (27315 # 100)))
  | HA_vol =>
      if qle value 0 then raise (ValueError "Specific volume must be positive")
      else if qlt 1000 value then
        raise (ValueError "Specific volume exceeding reasonable range (> 1000 m3/kg)")
      else setattr "_vol" (PNum value)
  | _ => setattr ("_" ++ ha_name p)%string (PNum value)
  end.

(** The decorator [state_setter_ha].  The [hasattr] initialisation of
    [_constraints_set] is a no-op here: [__init__] always creates it. *)
Definition state_setter_ha (p : ha_prop) (func : pyval -> M unit) (value : pyval) : M unit :=
  let prop_name := ha_name p in
  let* self := get_obj in
  if Nat.ltb (length (cset self)) 2 || mem prop_name (cset self) then
    func value ;; cs_add prop_name
  else
    try_except (func value ;; cs_add prop_name)
      (fun e => raise (ValueError ("Cannot set " ++ prop_name ++ " - " ++ exc_str e)%string)).

(** [state.<p> = value] on a StateHA:
    [@state_setter_ha @validate_input_ha def p(self, value)]. *)
Definition StateHA_write (p : ha_prop) (value : pyval) : M unit :=
  state_setter_ha p (validate_input_ha p (StateHA_setter_body p)) value.

(** [try: m except ValueError as e: h(str(e))]: other exceptions pass. *)
Definition try_except_value_error {A} (m : M A) (h : string -> M A) : M A :=
  fun s => match m s with
           | (inl (ValueError msg), s') => h msg s'
           | r => r
           end.

Section HAOracle.

(** CoolProp's [HAPropsSI(output, name1, value1, name2, value2, ...)]. *)
Variable HAPropsSI : string -> list (string * pyval) -> exc + Q.

(** One iteration of the argument-building loop of [get_prop] and
    [test_state_validity]: [_prop_map[c]], [getattr(self, "_" + c)] and the
    Celsius conversion. *)
Definition StateHA_constraint_arg (constraint : string) : M (string * pyval) :=
  let* coolprop_name := dict_get StateHA_prop_map constraint in
  let* value := getattr ("_" ++ constraint)%string in
  let* value := if String.eqb constraint "tempc" then py_add value (27315 # 100)
                else ret value in
  ret (coolprop_name, value).

(** [StateHA.get_prop] *)
Definition StateHA_get_prop (prop : string) : M Q :=
  let* self := get_obj in
  if Nat.ltb (length (cset self)) 3 then
    raise (ValueError "Cannot calculate properties until state is fully defined with 3 constraints")
  else
    let* props := mapM StateHA_constraint_arg (cset self) in
    lift (HAPropsSI prop props).

(** [StateHA.test_state_validity]: the Validity Checker.  It is defined in
    the class but no setter calls it. *)
Definition StateHA_test_state_validity (current_props : list string)
    (new_prop : string) (new_value : Q) : M bool :=
  try_except_value_error
    (let* test_props := mapM StateHA_constraint_arg current_props in
     let* coolprop_new_prop := dict_get StateHA_prop_map new_prop in
     let new_value_converted :=
       if String.eqb new_prop "tempc" then new_value + (27315 # 100) else new_value in
     let* input_prop :=
       match current_props with
       | c :: _ => dict_get StateHA_prop_map c
       | [] => raise IndexError
       end in
     lift (HAPropsSI input_prop
             (test_props ++ [(coolprop_new_prop, PNum new_value_converted)])) ;;
     ret true)
    (fun msg => raise (ValueError ("Invalid state: " ++ msg)%string)).

(** The common getter shape: the stored value when pinned, [get_prop(code)]
    when three properties are pinned, the stored value otherwise. *)
Definition StateHA_getter (p : ha_prop) (code : string) : M pyval :=
  let attr := ("_" ++ ha_name p)%string in
  let* self := get_obj in
  if mem (ha_name p) (cset self) then getattr attr
  else if Nat.eqb (length (cset self)) 3 then
    let* q := StateHA_get_prop code in ret (PNum q)
  else getattr attr.

(** [state.<p>] on a StateHA. *)
Definition StateHA_read (p : ha_prop) : M pyval :=
  match p with
  | HA_tempk => StateHA_getter HA_tempk "T"
  | HA_tempc =>
      let* self := get_obj in
      if mem "tempc" (cset self) then getattr "_tempc"
      else if mem "tempk" (cset self) then
        let* k := getattr "_tempk" in py_sub k (27315 # 100)
      else
        let* k := StateHA_getter HA_tempk "T" in py_sub k (27315 # 100)
  | HA_press => StateHA_getter HA_press "P"
  | HA_relhum => StateHA_getter HA_relhum "R"
  | HA_humrat => StateHA_getter HA_humrat "W"
  | HA_wetbulb => StateHA_getter HA_wetbulb "B"
  | HA_dewpoint => StateHA_getter HA_dewpoint "D"
  | HA_vol => StateHA_getter HA_vol "V"
  | HA_enthalpy => StateHA_getter HA_enthalpy "H"
  | HA_entropy => StateHA_getter HA_entropy "S"
  | HA_density =>
      let* self := get_obj in
      if mem "density" (cset self) then getattr "_density"
      else if Nat.eqb (length (cset self)) 3 then
        let* vol := StateHA_get_prop "V" in py_div 1 (PNum vol)
      else getattr "_density"
  | HA_cp => StateHA_getter HA_cp "C"
  | HA_viscosity => StateHA_getter HA_viscosity "M"
  | HA_conductivity => StateHA_getter HA_conductivity "K"
  | HA_prandtl => StateHA_getter HA_prandtl "L"
  end.

End HAOracle.

(** [StateHA.set(props)]: the legacy bulk path, one setter call per
    (code, value) pair; codes outside its map are skipped and an odd-length
    list raises IndexError at its last code. *)
Definition StateHA_set_map (code : string) : option ha_prop :=
  match code with
  | "T" => Some HA_tempk | "P" => Some HA_press | "W" => Some HA_humrat
  | "R" => Some HA_relhum | "B" => Some HA_wetbulb | "D" => Some HA_dewpoint
  | "V" => Some HA_vol | "H" => Some HA_enthalpy | "S" => Some HA_entropy
  | "C" => Some HA_cp | "M" => Some HA_viscosity | "K" => Some HA_conductivity
  | "L" => Some HA_prandtl
  | _ => None
  end%string.

Fixpoint StateHA_set (props : list pyval) : M unit :=
  match props with
  | [] => ret tt
  | [_] => raise IndexError
  | name :: value :: rest =>
      match name with
      | PStr code =>
          match StateHA_set_map code with
          | Some p => StateHA_write p value ;; StateHA_set rest
          | None => StateHA_set rest
          end
      | _ => StateHA_set rest
      end
  end.

(** * StateProps *)

Inductive pr_prop :=
| PR_tempk | PR_tempc | PR_press | PR_dens | PR_quality | PR_enthalpy
| PR_entropy | PR_cp | PR_cv | PR_vol.

Definition pr_props : list pr_prop :=
  [PR_tempk; PR_tempc; PR_press; PR_dens; PR_quality; PR_enthalpy;
   PR_entropy; PR_cp; PR_cv; PR_vol].

Definition pr_name (p : pr_prop) : string :=
  match p with
  | PR_tempk => "tempk" | PR_tempc => "tempc" | PR_press => "press"
  | PR_dens => "dens" | PR_quality => "quality" | PR_enthalpy => "enthalpy"
  | PR_entropy => "entropy" | PR_cp => "cp" | PR_cv => "cv" | PR_vol => "vol"
  end.

(** [StateProps._prop_map]: it has no entry for ["vol"]. *)
Definition StateProps_prop_map : list (string * string) :=
  [("tempk", "T"); ("tempc", "T"); ("press", "P"); ("dens", "D");
   ("enthalpy", "H"); ("entropy", "S"); ("quality", "Q"); ("cp", "C");
   ("cv", "O")].

(** The attributes created by [StateProps.__init__] (there is no [_vol]). *)
Definition StateProps_attrs0 : gmap string pyval :=
  list_to_map
    [("_tempk", PNone); ("_tempc", PNone); ("_press", PNone); ("_dens", PNone);
     ("_enthalpy", PNone); ("_entropy", PNone); ("_quality", PNone);
     ("_cp", PNone); ("_cv", PNone); ("_fluid", PNone)]%string.

(** The [fluid] property setter. *)
Definition StateProps_set_fluid (value : pyval) : M unit :=
  match value with
  | PStr _ => setattr "_fluid" value
  | _ => raise (TypeError "fluid must be a string")
  end.

(** The range checks of [validate_input_props] (no branch for [vol]). *)
Definition pr_range_check (p : pr_prop) (v : Q) : option string :=
  let n := pr_name p in
  match p with
  | PR_tempk =>
      if qle v 0 then Some (n ++ " must be above absolute zero")%string
      else if qlt 2000 v then Some (n ++ " exceeding reasonable range (> 1726.85 C)")%string
      else None
  | PR_tempc =>
      if qlt v (-27315 # 100) then Some "Temperature cannot be below absolute zero"
      else if qlt (172685 # 100) v then Some "Temperature exceeding reasonable range (> 1726.85 C)"
      else None
  | PR_press =>
      if qle v 0 then Some "Pressure must be positive"
      else if qlt 1000000000 v then Some "Pressure exceeding reasonable range (> 10000 bar)"
      else None
  | PR_dens =>
      if qle v 0 then Some "Density must be positive"
      else if qlt 100000 v then Some "Density exceeding reasonable range (> 100000 kg/m3)"
      else None
  | PR_quality =>
      if qlt v 0 || qlt 1 v then Some "Quality must be between 0 and 1" else None
  | PR_enthalpy =>
      if qlt 100000000 (Qabs v) then Some "Enthalpy exceeding reasonable range (|h| > 100,000,000 J/kg)"
      else None
  | PR_entropy =>
      if qlt 1000000 (Qabs v) then Some "Entropy exceeding reasonable range (|s| > 1,000,000 J/kg-K)"
      else None
  | PR_cp =>
      if qle v 0 then Some "Specific heat capacity at constant pressure must be positive"
      else if qlt 100000 v then Some "Specific heat capacity exceeding reasonable range (> 100,000 J/kg-K)"
      else None
  | PR_cv =>
      if qle v 0 then Some "Specific heat capacity at constant volume must be positive"
      else if qlt 100000 v then Some "Specific heat capacity exceeding reasonable range (> 100,000 J/kg-K)"
      else None
  | PR_vol => None
  end.

(** The decorator [validate_input_props]. *)
Definition validate_input_props (p : pr_prop) (func : Q -> M unit) (value : pyval) : M unit :=
  match value with
  | PNum v =>
      match pr_range_check p v with
      | Some msg => raise (ValueError msg)
      | None => func v
      end
  | _ => raise (TypeError (pr_name p ++ " must be a number")%string)
  end.

(** The bodies of the [StateProps] property setters ([float(value)] is
    the identity on numbers). *)
Definition StateProps_setter_body (p : pr_prop) (value : Q) : M unit :=
  match p with
  | PR_tempc =>
      setattr "_tempc" (PNum value) ;;
      setattr "_tempk" (PNum (value + (27315 # 100)))
  | PR_vol =>
      if qle value 0 then raise (ValueError "Specific volume must be positive")
      else if qlt 1000 value then
        raise (ValueError "Specific volume exceeding reasonable range (> 1000 m3/kg)")
      else setattr "_dens" (PNum (1 / value))
  | _ => setattr ("_" ++ pr_name p)%string (PNum value)
  end.

(** The decorator [state_setter_PROPS]. *)
Definition state_setter_PROPS (p : pr_prop) (func : pyval -> M unit) (value : pyval) : M unit :=
  let prop_name := pr_name p in
  let* self := get_obj in
  if fluid_is_none self then
    raise (ValueError ("Cannot set " ++ prop_name
             ++ " - fluid type must be set first with state.fluid = 'fluid_name'")%string)
  else if Nat.ltb (length (cset self)) 2 || mem prop_name (cset self) then
    func value ;; cs_add prop_name
  else
    try_except (func value ;; cs_add prop_name)
      (fun e => raise (ValueError ("Cannot set " ++ prop_name ++ " - " ++ exc_str e)%string)).

(** [state.<p> = value] on a StateProps. *)
Definition StateProps_write (p : pr_prop) (value : pyval) : M unit :=
  state_setter_PROPS p (validate_input_props p (StateProps_setter_body p)) value.

(** [StateProps.set(props)]: the fluid is the last element; each pair goes
    through the setter, a ValueError only warns (the loop goes on), other
    exceptions propagate. *)
Definition StateProps_set_map (code : string) : option pr_prop :=
  match code with
  | "T" => Some PR_tempk | "P" => Some PR_press | "Q" => Some PR_quality
  | "D" => Some PR_dens | "H" => Some PR_enthalpy | "S" => Some PR_entropy
  | "C" => Some PR_cp | "O" => Some PR_cv
  | _ => None
  end%string.

Fixpoint StateProps_set_pairs (props : list pyval) : M unit :=
  match props with
  | [] => ret tt
  | [_] => raise IndexError
  | name :: value :: rest =>
      match name with
      | PStr code =>
          match StateProps_set_map code with
          | Some p =>
              try_except_value_error (StateProps_write p value) (fun _ => ret tt) ;;
              StateProps_set_pairs rest
          | None => StateProps_set_pairs rest
          end
      | _ => StateProps_set_pairs rest
      end
  end.

Definition StateProps_set (props : list pyval) : M unit :=
  if Nat.leb 5 (length props) then
    StateProps_set_fluid (List.last props PNone) ;;
    StateProps_set_pairs (List.removelast props)
  else raise (ValueError "Props must include a fluid name as the last element").

(** [StateProps.__init__(props, fluid)], run on the object whose
    attributes the first lines of [__init__] create. *)
Definition StateProps_empty : obj := mk_obj StateProps_attrs0 [].

Definition StateProps_init (props : option (list pyval)) (fluid : option pyval) : M unit :=
  match fluid with
  | Some f => StateProps_set_fluid f
  | None => ret tt
  end ;;
  match props with
  | Some l => StateProps_set l
  | None => ret tt
  end.

Section PropsOracle.

(** CoolProp's [PropsSI(output, name1, value1, name2, value2, fluid)]. *)
Variable PropsSI : string -> list (string * pyval) -> pyval -> exc + Q.

Definition StateProps_constraint_arg (constraint : string) : M (string * pyval) :=
  let* coolprop_name := dict_get StateProps_prop_map constraint in
  let* value := getattr ("_" ++ constraint)%string in
  let* value := if String.eqb constraint "tempc" then py_add value (27315 # 100)
                else ret value in
  ret (coolprop_name, value).

(** [StateProps.get_prop] *)
Definition StateProps_get_prop (prop : string) : M Q :=
  let* self := get_obj in
  if Nat.ltb (length (cset self)) 2 then
    raise (ValueError "Cannot calculate properties until state is fully defined with 2 constraints")
  else
    let* fluid := getattr "_fluid" in
    if negb (truthy fluid) then
      raise (ValueError "Fluid type must be set before calculating properties")
    else
      let* props := mapM StateProps_constraint_arg (cset self) in
      lift (PropsSI prop props fluid).

(** [StateProps.test_state_validity]; like its StateHA sibling, no setter
    calls it. *)
Definition StateProps_test_state_validity (current_props : list string)
    (new_prop : string) (new_value : Q) : M bool :=
  let* fluid := getattr "_fluid" in
  if negb (truthy fluid) then
    raise (ValueError "Fluid type must be set before validating state")
  else
  try_except_value_error
    (let* test_props := mapM StateProps_constraint_arg current_props in
     let* coolprop_new_prop := dict_get StateProps_prop_map new_prop in
     let new_value_converted :=
       if String.eqb new_prop "tempc" then new_value + (27315 # 100) else new_value in
     let* input_prop :=
       match current_props with
       | c :: _ => dict_get StateProps_prop_map c
       | [] => raise IndexError
       end in
     lift (PropsSI input_prop
             (test_props ++ [(coolprop_new_prop, PNum new_value_converted)]) fluid) ;;
     ret true)
    (fun msg => raise (ValueError ("Invalid state: " ++ msg)%string)).

(** Getters of [tempk], [press] and [dens]. *)
Definition StateProps_getter (p : pr_prop) (code : string) : M pyval :=
  let attr := ("_" ++ pr_name p)%string in
  let* self := get_obj in
  if mem (pr_name p) (cset self) then getattr attr
  else if Nat.eqb (length (cset self)) 2 then
    let* q := StateProps_get_prop code in ret (PNum q)
  else getattr attr.

(** Getters of [enthalpy], [entropy], [cp] and [cv]: [None] unless two
    properties and the fluid are set. *)
Definition StateProps_getter_fluid (p : pr_prop) (code : string) : M pyval :=
  let* self := get_obj in
  if mem (pr_name p) (cset self) then getattr ("_" ++ pr_name p)%string
  else if Nat.eqb (length (cset self)) 2 && negb (fluid_is_none self) then
    let* q := StateProps_get_prop code in ret (PNum q)
  else ret PNone.

(** [state.<p>] on a StateProps. *)
Definition StateProps_read (p : pr_prop) : M pyval :=
  match p with
  | PR_tempk => StateProps_getter PR_tempk "T"
  | PR_tempc =>
      let* self := get_obj in
      if mem "tempc" (cset self) then getattr "_tempc"
      else if mem "tempk" (cset self) then
        let* k := getattr "_tempk" in py_sub k (27315 # 100)
      else
        let* k := StateProps_getter PR_tempk "T" in py_sub k (27315 # 100)
  | PR_press => StateProps_getter PR_press "P"
  | PR_dens => StateProps_getter PR_dens "D"
  | PR_quality =>
      let* self := get_obj in
      if mem "quality" (cset self) then getattr "_quality"
      else if Nat.eqb (length (cset self)) 2 && negb (fluid_is_none self) then
        try_except_value_error
          (let* q := StateProps_get_prop "Q" in ret (PNum q))
          (fun _ => ret PNone)
      else ret PNone
  | PR_enthalpy => StateProps_getter_fluid PR_enthalpy "H"
  | PR_entropy => StateProps_getter_fluid PR_entropy "S"
  | PR_cp => StateProps_getter_fluid PR_cp "C"
  | PR_cv => StateProps_getter_fluid PR_cv "O"
  | PR_vol =>
      (* [if self.dens is not None: return 1.0 / self.dens]: two reads *)
      let* d := StateProps_getter PR_dens "D" in
      match d with
      | PNone => ret PNone
      | _ => let* d' := StateProps_getter PR_dens "D" in py_div 1 d'
      end
  end.

End PropsOracle.

(** ** [constraints] and the [fluid] getter *)

(** [sorted(list(self._constraints_set))]: Python orders strings by code
    point, as [String.leb] does. *)
Definition str_le (a b : string) : Prop := String.leb a b = true.
#[global] Instance str_le_dec : RelDecision str_le :=
  fun a b => decide (String.leb a b = true).
Definition py_sorted (l : list string) : list string := merge_sort str_le l.



(** The dictionary returned by [StateProps.constraints]; [None] and strings
    are Python values. *)
Record constraints_dict := mk_constraints_dict {
  cd_properties : list string;
  cd_fluid : pyval;
  cd_is_complete : bool;
  cd_status : pyval;
  cd_edition : pyval
}.

(** [v == c] for a number [c]: [None] and strings are never equal to it. *)
Definition py_eq_num (v : pyval) (c : Q) : bool :=
  match v with PNum q => Qeq_bool q c | _ => false end.

(** [v > c] for a number [c]: [None > c] raises TypeError. *)
Definition py_gt (v : pyval) (c : Q) : M bool :=
  match v with
  | PNum q => ret (qlt c q)
  | _ => raise (TypeError "'>' not supported between instances")
  end.

Section PropsConstraints.

Variable PropsSI : string -> list (string * pyval) -> pyval -> exc + Q.
(** [from CoolProp import __version__ as cp_version]: the import may fail. *)
Variable CoolProp_version : exc + string.

(** The phase status computed inside the outer [try] of
    [StateProps.constraints]; the inner [try ... except:] catches every
    exception. *)
Definition StateProps_phase_status (props : list string) : M pyval :=
  if mem "quality" props then
    let* quality_val := getattr "_quality" in
    if py_eq_num quality_val 0 then ret (PStr "saturated_liquid")
    else if py_eq_num quality_val 1 then ret (PStr "saturated_vapor")
    else ret (PStr "two_phase")
  else
    try_except
      (let* quality := StateProps_read PropsSI PR_quality in
       if py_eq_num quality (-1) then
         if mem "press" props then
           let* press_val := getattr "_press" in
           let* pcrit := StateProps_get_prop PropsSI "pcrit" in
           let* above := py_gt press_val pcrit in
           if above then ret (PStr "supercritical")
           else if mem "tempk" props || mem "tempc" props then
             let* temp_val := getattr "_tempk" in
             let* tcrit := StateProps_get_prop PropsSI "Tcrit" in
             let* above' := py_gt temp_val tcrit in
             if above' then ret (PStr "supercritical") else ret (PStr "liquid")
           else ret PNone
         else ret (PStr "single_phase")
       else ret (PStr "two_phase"))
      (fun _ => ret (PStr "single_phase")).

(** The [edition] lookup, whose [try ... except:] yields ["Unknown"]. *)
Definition StateProps_edition : M pyval :=
  match CoolProp_version with
  | inr v => ret (PStr v)
  | inl _ => ret (PStr "Unknown")
  end.

(** [StateProps.constraints] *)
Definition StateProps_constraints : M constraints_dict :=
  let* self := get_obj in
  let props := py_sorted (cset self) in
  let fluid := match attrs self !! "_fluid" with Some f => f | None => PNone end in
  let is_complete := Nat.eqb (length props) 2 && negb (fluid_is_none self) in
  let* status_edition :=
    if is_complete then
      try_except
        (let* status := StateProps_phase_status props in
         let* edition := StateProps_edition in
         ret (status, edition))
        (fun _ => ret (PStr "Unknown", PStr "Unknown"))
    else ret (PNone, PNone) in
  ret (mk_constraints_dict props fluid is_complete
         (fst status_edition) (snd status_edition)).

End PropsConstraints.

(** * Properties *)

(** ** Exceptions leave the object as it was: [atomic] *)

Definition atomic {A} (m : M A) : Prop :=
  forall s e s', m s = (inl e, s') -> s' = s.

(** Never raises. *)
Definition total {A} (m : M A) : Prop :=
  forall s, exists a s', m s = (inr a, s').

Create HintDb pymonad.

Lemma raise_atomic {A} (e : exc) : atomic (A:=A) (raise e).
Proof. intros s e' s' H. now inversion H. Qed.

Lemma ret_total {A} (a : A) : total (ret a).
Proof. intros s. now exists a, s. Qed.

Lemma setattr_total k v : total (setattr k v).
Proof. intros s. eexists _, _. reflexivity. Qed.

Lemma cs_add_total x : total (cs_add x).
Proof. intros s. eexists _, _. reflexivity. Qed.

Lemma total_atomic {A} (m : M A) : total m -> atomic m.
Proof. intros Ht s e s' H. destruct (Ht s) as (a & s'' & E). congruence. Qed.

Lemma bind_total {A B} (m : M A) (k : A -> M B) :
  total m -> (forall a, total (k a)) -> total (bind m k).
Proof.
  intros Hm Hk s. unfold bind. destruct (Hm s) as (a & s1 & ->). apply Hk.
Qed.

Lemma bind_atomic_total {A B} (m : M A) (k : A -> M B) :
  atomic m -> (forall a, total (k a)) -> atomic (bind m k).
Proof.
  intros Hm Hk s e s' H. unfold bind in H.
  destruct (m s) as [[e0|a] s1] eqn:E.
  - inversion H; subst. eapply Hm; eauto.
  - destruct (Hk a s1) as (b & s2 & E2). congruence.
Qed.

Lemma get_obj_atomic {A} (k : obj -> M A) :
  (forall x, atomic (k x)) -> atomic (bind get_obj k).
Proof. intros Hk s e s' H. exact (Hk s s e s' H). Qed.

Lemma try_except_atomic {A} (m : M A) (h : exc -> M A) :
  atomic m -> (forall e, atomic (h e)) -> atomic (try_except m h).
Proof.
  intros Hm Hh s e s' H. unfold try_except in H.
  destruct (m s) as [[e0|a] s1] eqn:E.
  - pose proof (Hm _ _ _ E) as ->. eapply Hh; eauto.
  - discriminate.
Qed.

#[local] Hint Resolve raise_atomic ret_total setattr_total cs_add_total total_atomic
  bind_total bind_atomic_total get_obj_atomic try_except_atomic : pymonad.

Lemma StateHA_setter_body_atomic p q : atomic (StateHA_setter_body p q).
Proof.
  destruct p; simpl; auto with pymonad.
  destruct (qle q 0); [|destruct (qlt 1000 q)]; auto with pymonad.
Qed.

Lemma validate_input_ha_atomic p f v :
  (forall q, atomic (f q)) -> atomic (validate_input_ha p f v).
Proof.
  intros Hf. unfold validate_input_ha.
  destruct v as [|q|]; auto with pymonad. destruct (ha_range_check p q); auto with pymonad.
Qed.

Lemma state_setter_ha_atomic p f v :
  atomic (f v) -> atomic (state_setter_ha p f v).
Proof.
  intros Hf. unfold state_setter_ha. apply get_obj_atomic. intros self.
  destruct (_ || _); auto with pymonad.
Qed.

Lemma StateProps_setter_body_atomic p q : atomic (StateProps_setter_body p q).
Proof.
  destruct p; simpl; auto with pymonad.
  destruct (qle q 0); [|destruct (qlt 1000 q)]; auto with pymonad.
Qed.

Lemma validate_input_props_atomic p f v :
  (forall q, atomic (f q)) -> atomic (validate_input_props p f v).
Proof.
  intros Hf. unfold validate_input_props.
  destruct v as [|q|]; auto with pymonad. destruct (pr_range_check p q); auto with pymonad.
Qed.

Lemma state_setter_PROPS_atomic p f v :
  atomic (f v) -> atomic (state_setter_PROPS p f v).
Proof.
  intros Hf. unfold state_setter_PROPS. apply get_obj_atomic. intros self.
  destruct (fluid_is_none self); [auto with pymonad|].
  destruct (_ || _); auto with pymonad.
Qed.

(** Claim C5 (atomicity): every property write on a StateHA or a StateProps
    that raises (TypeError, range ValueError, missing fluid, or anything
    re-raised as "Cannot set ...") leaves the object, hence the constraints
    set and every stored value, exactly as it was before the call. *)
Theorem C5_rejected_write_atomic :
  (forall (p : ha_prop) (v : pyval) (s s' : obj) (e : exc),
      StateHA_write p v s = (inl e, s') -> s' = s) /\
  (forall (p : pr_prop) (v : pyval) (s s' : obj) (e : exc),
      StateProps_write p v s = (inl e, s') -> s' = s).
Proof.
  split; intros p v s s' e H.
  - eapply (state_setter_ha_atomic p _ v); [|exact H].
    apply validate_input_ha_atomic, StateHA_setter_body_atomic.
  - eapply (state_setter_PROPS_atomic p _ v); [|exact H].
    apply validate_input_props_atomic, StateProps_setter_body_atomic.
Qed.

(** ** What a write does when it passes the local checks *)

Lemma StateHA_setter_body_ok p q s :
  ha_range_check p q = None ->
  exists s1, StateHA_setter_body p q s = (inr tt, s1) /\ cset s1 = cset s.
Proof.
  intros Hr. destruct p; try (eexists; split; reflexivity).
  simpl in *. destruct (qle q 0); [discriminate|].
  destruct (qlt 1000 q); [discriminate|]. eexists; split; reflexivity.
Qed.

(** A write whose value is a number passing the range check of
    [validate_input_ha] always succeeds: the setter body runs and the name
    is added to the constraints set, whatever the pin count. *)
Lemma StateHA_write_ok p q s :
  ha_range_check p q = None ->
  exists s1, StateHA_setter_body p q s = (inr tt, s1) /\ cset s1 = cset s /\
    StateHA_write p (PNum q) s = (inr tt, mk_obj (attrs s1) (set_add (ha_name p) (cset s))).
Proof.
  intros Hr. destruct (StateHA_setter_body_ok p q s Hr) as (s1 & E & C).
  exists s1. split; [exact E|]. split; [exact C|].
  unfold StateHA_write, state_setter_ha, bind at 1, get_obj.
  destruct (_ || _).
  - unfold bind, validate_input_ha. rewrite Hr, E. unfold cs_add. now rewrite C.
  - unfold try_except, bind, validate_input_ha. rewrite Hr, E. unfold cs_add. now rewrite C.
Qed.

Lemma bind_get_obj {A} (k : obj -> M A) s : bind get_obj k s = k s s.
Proof. reflexivity. Qed.

Lemma StateHA_write_error_cases p v s :
  (forall q, v = PNum q -> ha_range_check p q <> None) ->
  exists e, fst (StateHA_write p v s) = inl e.
Proof.
  intros Hv. unfold StateHA_write, state_setter_ha. rewrite bind_get_obj.
  unfold try_except, bind, validate_input_ha.
  destruct v as [|q|].
  - destruct (_ || _); simpl; eauto.
  - destruct (ha_range_check p q) eqn:Hr; [|exfalso; exact (Hv q eq_refl Hr)].
    destruct (_ || _); simpl; eauto.
  - destruct (_ || _); simpl; eauto.
Qed.

(** Whether [StateProps_setter_body] accepts a value that passed
    [validate_input_props] (only the [vol] body has checks of its own). *)
Definition pr_accepts (p : pr_prop) (q : Q) : bool :=
  match pr_range_check p q with
  | Some _ => false
  | None => match p with PR_vol => negb (qle q 0) && negb (qlt 1000 q) | _ => true end
  end.

Lemma StateProps_setter_body_ok p q s :
  pr_accepts p q = true ->
  exists s1, StateProps_setter_body p q s = (inr tt, s1) /\ cset s1 = cset s.
Proof.
  intros Ha. destruct p; try (eexists; split; reflexivity).
  unfold pr_accepts in Ha. simpl in *. destruct (qle q 0); [discriminate|].
  destruct (qlt 1000 q); [discriminate|]. eexists; split; reflexivity.
Qed.

Lemma pr_accepts_range p q : pr_accepts p q = true -> pr_range_check p q = None.
Proof. unfold pr_accepts. destruct (pr_range_check p q); easy. Qed.

Lemma StateProps_write_ok p q s :
  fluid_is_none s = false -> pr_accepts p q = true ->
  exists s1, StateProps_setter_body p q s = (inr tt, s1) /\ cset s1 = cset s /\
    StateProps_write p (PNum q) s = (inr tt, mk_obj (attrs s1) (set_add (pr_name p) (cset s))).
Proof.
  intros Hf Ha. pose proof (pr_accepts_range p q Ha) as Hr.
  destruct (StateProps_setter_body_ok p q s Ha) as (s1 & E & C).
  exists s1. split; [exact E|]. split; [exact C|].
  unfold StateProps_write, state_setter_PROPS, bind at 1, get_obj. rewrite Hf.
  destruct (_ || _).
  - unfold bind, validate_input_props. rewrite Hr, E. unfold cs_add. now rewrite C.
  - unfold try_except, bind, validate_input_props. rewrite Hr, E. unfold cs_add. now rewrite C.
Qed.

Lemma StateProps_write_error_cases p v s :
  fluid_is_none s = true \/ (forall q, v = PNum q -> pr_accepts p q = false) ->
  exists e, fst (StateProps_write p v s) = inl e.
Proof.
  intros Hv. unfold StateProps_write, state_setter_PROPS. rewrite bind_get_obj.
  destruct (fluid_is_none s) eqn:Hf; [simpl; eauto|].
  destruct Hv as [Hv|Hv]; [discriminate|].
  unfold try_except, bind, validate_input_props.
  destruct v as [|q|]; [destruct (_ || _); simpl; eauto| |destruct (_ || _); simpl; eauto].
  specialize (Hv q eq_refl). unfold pr_accepts in Hv.
  destruct (pr_range_check p q) eqn:Hr.
  - destruct (_ || _); simpl; eauto.
  - destruct p; try discriminate. simpl in Hv |- *.
    destruct (qle q 0); simpl in Hv.
    + destruct (_ || _); simpl; eauto.
    + destruct (qlt 1000 q); [|discriminate]. destruct (_ || _); simpl; eauto.
Qed.

Lemma set_add_length x l :
  length (set_add x l) = (length l + if mem x l then 0 else 1)%nat.
Proof.
  unfold set_add. destruct (mem x l); simpl.
  - lia.
  - rewrite length_app. simpl. lia.
Qed.

(** ** Sample objects and oracles *)

(** [StateHA(['P', 101325, 'T', 293.15])] and
    [StateHA(['P', 101325, 'T', 293.15, 'R', 0.5])]. *)
Definition ha_PT_props : list pyval :=
  [PStr "P"; PNum 101325; PStr "T"; PNum (29315 # 100)].
Definition ha_PT : obj := snd (StateHA_set ha_PT_props StateHA_init).
Definition ha_PTR : obj :=
  snd (StateHA_set (ha_PT_props ++ [PStr "R"; PNum (1 # 2)]) StateHA_init).

(** [StateProps(['T', 293.15, 'P', 101325, 'Water'])] *)
Definition water_TP : obj :=
  snd (StateProps_init (Some [PStr "T"; PNum (29315 # 100); PStr "P"; PNum 101325;
                              PStr "Water"]) None StateProps_empty).

(** An oracle that finds every combination physically invalid. *)
Definition HAPropsSI_reject : string -> list (string * pyval) -> exc + Q :=
  fun _ _ => inl (ValueError "no solution").

(** ** C1: pin count *)

(** Claim C1, counterexample: a fourth humid-air property (humidity ratio
    0.005 after P, T and R are set) and a third pure-fluid property (density
    500 after T and P) are accepted and pinned. *)
Lemma C1_counterexample :
  fst (StateHA_write HA_humrat (PNum (1 # 200)) ha_PTR) = inr tt /\
  length (cset (snd (StateHA_write HA_humrat (PNum (1 # 200)) ha_PTR))) = 4%nat /\
  fst (StateProps_write PR_dens (PNum 500) water_TP) = inr tt /\
  length (cset (snd (StateProps_write PR_dens (PNum 500) water_TP))) = 3%nat.
Proof. vm_compute. repeat split. Qed.

(** Claim C1, as amended: the pin count is not bounded by requiredPins.  A
    successful write adds the property name to the constraints set
    ([set.add]: the count is unchanged only when the name was already
    pinned), and a write whose value passes the local type and range checks
    (and, for StateProps, with the fluid set) is accepted whatever the
    current pin count. *)
Theorem C1_pin_count_unbounded :
  (forall (p : ha_prop) (v : pyval) (s s' : obj),
      StateHA_write p v s = (inr tt, s') -> cset s' = set_add (ha_name p) (cset s)) /\
  (forall (p : ha_prop) (q : Q) (s : obj),
      ha_range_check p q = None -> fst (StateHA_write p (PNum q) s) = inr tt) /\
  (forall (p : pr_prop) (v : pyval) (s s' : obj),
      StateProps_write p v s = (inr tt, s') -> cset s' = set_add (pr_name p) (cset s)) /\
  (forall (p : pr_prop) (q : Q) (s : obj),
      fluid_is_none s = false -> pr_accepts p q = true ->
      fst (StateProps_write p (PNum q) s) = inr tt).
Proof.
  split; [|split; [|split]].
  - intros p v s s' H.
    assert (Hc : (exists q, v = PNum q /\ ha_range_check p q = None) \/
                 (forall q, v = PNum q -> ha_range_check p q <> None)).
    { destruct v as [|q|]; [right; discriminate| |right; discriminate].
      destruct (ha_range_check p q) eqn:Hr; [right | left; eauto].
      intros q' [= <-]. congruence. }
    destruct Hc as [(q & -> & Hr) | Hv].
    + destruct (StateHA_write_ok p q s Hr) as (s1 & _ & _ & E).
      rewrite H in E. now inversion E.
    + destruct (StateHA_write_error_cases p v s Hv) as [e He].
      rewrite H in He. discriminate.
  - intros p q s Hr. destruct (StateHA_write_ok p q s Hr) as (s1 & _ & _ & ->). reflexivity.
  - intros p v s s' H.
    destruct (fluid_is_none s) eqn:Hf.
    { destruct (StateProps_write_error_cases p v s) as [e He]; [now left|].
      rewrite H in He. discriminate. }
    assert (Hc : (exists q, v = PNum q /\ pr_accepts p q = true) \/
                 (forall q, v = PNum q -> pr_accepts p q = false)).
    { destruct v as [|q|]; [right; discriminate| |right; discriminate].
      destruct (pr_accepts p q) eqn:Ha; [left; eauto | right].
      intros q' [= <-]. exact Ha. }
    destruct Hc as [(q & -> & Ha) | Hv].
    + destruct (StateProps_write_ok p q s Hf Ha) as (s1 & _ & _ & E).
      rewrite H in E. now inversion E.
    + destruct (StateProps_write_error_cases p v s (or_intror Hv)) as [e He].
      rewrite H in He. discriminate.
  - intros p q s Hf Ha. destruct (StateProps_write_ok p q s Hf Ha) as (s1 & _ & _ & ->).
    reflexivity.
Qed.

Lemma C1_witness :
  fst (StateHA_write HA_humrat (PNum (1 # 200)) ha_PTR) = inr tt /\
  fst (StateProps_write PR_dens (PNum 500) water_TP) = inr tt.
Proof.
  split.
  - apply (proj1 (proj2 C1_pin_count_unbounded)). reflexivity.
  - apply (proj2 (proj2 (proj2 C1_pin_count_unbounded))); vm_compute; reflexivity.
Defined.

Lemma C5_witness :
  StateHA_write HA_press (PNum (-1)) ha_PT = (inl (ValueError "Pressure must be positive"), ha_PT) /\
  ha_PT = ha_PT.
Proof.
  split; [reflexivity|].
  apply (proj1 C5_rejected_write_atomic HA_press (PNum (-1)) ha_PT ha_PT
           (ValueError "Pressure must be positive")).
  reflexivity.
Defined.

(** ** C2: the write that completes the state *)

(** Claim C2, counterexample: with P and T pinned, the Validity Checker
    [test_state_validity] would reject relative humidity 0.5 under an
    oracle that rejects every combination, yet the write is accepted and
    completes the state. *)
Lemma C2_counterexample :
  fst (StateHA_test_state_validity HAPropsSI_reject (cset ha_PT) "relhum" (1 # 2) ha_PT)
    = inl (ValueError "Invalid state: no solution") /\
  fst (StateHA_write HA_relhum (PNum (1 # 2)) ha_PT) = inr tt /\
  cset (snd (StateHA_write HA_relhum (PNum (1 # 2)) ha_PT)) = ["press"; "tempk"; "relhum"].
Proof. vm_compute. repeat split. Qed.

(** Claim C2, as amended: a write of a not-yet-pinned property when the pin
    count is requiredPins - 1 does not consult the oracle.  When the value
    passes the local checks (and, for StateProps, the fluid is set) the
    property is pinned and the state is complete. *)
Theorem C2_completing_write_unchecked :
  (forall (p : ha_prop) (q : Q) (s : obj),
      length (cset s) = 2%nat -> mem (ha_name p) (cset s) = false ->
      ha_range_check p q = None ->
      exists s', StateHA_write p (PNum q) s = (inr tt, s') /\
                 cset s' = cset s ++ [ha_name p] /\ length (cset s') = 3%nat) /\
  (forall (p : pr_prop) (q : Q) (s : obj),
      fluid_is_none s = false -> length (cset s) = 1%nat ->
      mem (pr_name p) (cset s) = false -> pr_accepts p q = true ->
      exists s', StateProps_write p (PNum q) s = (inr tt, s') /\
                 cset s' = cset s ++ [pr_name p] /\ length (cset s') = 2%nat).
Proof.
  split.
  - intros p q s Hl Hm Hr. destruct (StateHA_write_ok p q s Hr) as (s1 & _ & _ & ->).
    eexists; split; [reflexivity|]. simpl. unfold set_add. rewrite Hm.
    split; [reflexivity|]. rewrite length_app, Hl. reflexivity.
  - intros p q s Hf Hl Hm Ha. destruct (StateProps_write_ok p q s Hf Ha) as (s1 & _ & _ & ->).
    eexists; split; [reflexivity|]. simpl. unfold set_add. rewrite Hm.
    split; [reflexivity|]. rewrite length_app, Hl. reflexivity.
Qed.

Lemma C2_witness :
  exists s', StateHA_write HA_relhum (PNum (1 # 2)) ha_PT = (inr tt, s') /\
             cset s' = cset ha_PT ++ [ha_name HA_relhum] /\ length (cset s') = 3%nat.
Proof.
  apply (proj1 C2_completing_write_unchecked); vm_compute; reflexivity.
Defined.

(** ** C4: updating a pinned property *)

(** Claim C4, counterexample: on the complete state P, T, R the Validity
    Checker would reject a new temperature 303.15 K against the other pins,
    yet the write is accepted and stored. *)
Lemma C4_counterexample :
  fst (StateHA_test_state_validity HAPropsSI_reject ["press"; "relhum"] "tempk"
         (30315 # 100) ha_PTR) = inl (ValueError "Invalid state: no solution") /\
  fst (StateHA_write HA_tempk (PNum (30315 # 100)) ha_PTR) = inr tt /\
  attrs (snd (StateHA_write HA_tempk (PNum (30315 # 100)) ha_PTR)) !! "_tempk"
    = Some (PNum (30315 # 100)).
Proof. vm_compute. repeat split. Qed.

Lemma StateHA_setter_body_stores p q s s1 :
  StateHA_setter_body p q s = (inr tt, s1) ->
  attrs s1 !! ("_" ++ ha_name p)%string = Some (PNum q).
Proof.
  destruct p; simpl; intros H;
    try (inversion H; subst; simpl; now rewrite lookup_insert_eq).
  - inversion H; subst; simpl. rewrite lookup_insert_ne by discriminate.
    now rewrite lookup_insert_eq.
  - destruct (qle q 0); [discriminate|]. destruct (qlt 1000 q); [discriminate|].
    inversion H; subst; simpl. now rewrite lookup_insert_eq.
Qed.

(** Claim C4, as amended: on any state, a write to an already-pinned
    property skips the Validity Checker.  When the value passes the local
    checks (and, for StateProps, the fluid is set) the write is exactly the
    setter body: the stored value is replaced in place and the constraints
    set is unchanged. *)
Theorem C4_pinned_update_unchecked :
  (forall (p : ha_prop) (q : Q) (s : obj),
      mem (ha_name p) (cset s) = true -> ha_range_check p q = None ->
      StateHA_write p (PNum q) s = StateHA_setter_body p q s /\
      cset (snd (StateHA_write p (PNum q) s)) = cset s /\
      attrs (snd (StateHA_write p (PNum q) s)) !! ("_" ++ ha_name p)%string = Some (PNum q)) /\
  (forall (p : pr_prop) (q : Q) (s : obj),
      fluid_is_none s = false -> mem (pr_name p) (cset s) = true -> pr_accepts p q = true ->
      StateProps_write p (PNum q) s = StateProps_setter_body p q s /\
      cset (snd (StateProps_write p (PNum q) s)) = cset s).
Proof.
  split.
  - intros p q s Hm Hr. destruct (StateHA_write_ok p q s Hr) as (s1 & E & C & ->).
    unfold set_add. rewrite Hm, E. destruct s1 as [a1 c1]; simpl in *. subst c1.
    split; [reflexivity|]. split; [reflexivity|].
    exact (StateHA_setter_body_stores p q s _ E).
  - intros p q s Hf Hm Ha. destruct (StateProps_write_ok p q s Hf Ha) as (s1 & E & C & ->).
    unfold set_add. rewrite Hm, E. destruct s1 as [a1 c1]; simpl in *. subst c1.
    split; reflexivity.
Qed.

Lemma C4_witness :
  StateHA_write HA_tempk (PNum (30315 # 100)) ha_PTR
    = StateHA_setter_body HA_tempk (30315 # 100) ha_PTR /\
  cset (snd (StateHA_write HA_tempk (PNum (30315 # 100)) ha_PTR)) = cset ha_PTR /\
  attrs (snd (StateHA_write HA_tempk (PNum (30315 # 100)) ha_PTR)) !! "_tempk"
    = Some (PNum (30315 # 100)).
Proof.
  apply (proj1 C4_pinned_update_unchecked); vm_compute; reflexivity.
Defined.

(** ** C6: writes before the fluid is set *)

(** Claim C6: on a StateProps whose fluid is unset, every property write
    raises the missing-fluid ValueError, whatever the pin count, and the
    object is unchanged. *)
Theorem C6_missing_fluid_rejects_writes :
  forall (p : pr_prop) (v : pyval) (s : obj),
    fluid_is_none s = true ->
    StateProps_write p v s =
      (inl (ValueError ("Cannot set " ++ pr_name p
              ++ " - fluid type must be set first with state.fluid = 'fluid_name'")%string), s).
Proof.
  intros p v s Hf. unfold StateProps_write, state_setter_PROPS.
  rewrite bind_get_obj, Hf. reflexivity.
Qed.

Lemma C6_witness :
  fluid_is_none StateProps_empty = true /\
  StateProps_write PR_tempk (PNum 300) StateProps_empty =
    (inl (ValueError ("Cannot set tempk"
            ++ " - fluid type must be set first with state.fluid = 'fluid_name'")%string),
     StateProps_empty).
Proof.
  split; [reflexivity|].
  apply (C6_missing_fluid_rejects_writes PR_tempk (PNum 300) StateProps_empty). reflexivity.
Defined.

(** ** Reads store nothing *)

Definition readonly {A} (m : M A) : Prop := forall s, snd (m s) = s.

Lemma ret_readonly {A} (a : A) : readonly (ret a).
Proof. intros s. reflexivity. Qed.
Lemma raise_readonly {A} e : readonly (A:=A) (raise e).
Proof. intros s. reflexivity. Qed.
Lemma get_obj_readonly : readonly get_obj.
Proof. intros s. reflexivity. Qed.
Lemma getattr_readonly k : readonly (getattr k).
Proof. intros s. unfold getattr. now destruct (attrs s !! k). Qed.
Lemma lift_readonly {A} (r : exc + A) : readonly (lift r).
Proof. intros s. reflexivity. Qed.
Lemma dict_get_readonly d k : readonly (dict_get d k).
Proof. unfold dict_get. destruct (assoc k d) as [v|]; intros s; reflexivity. Qed.
Lemma py_sub_readonly x c : readonly (py_sub x c).
Proof. destruct x as [|q|t]; intros s; reflexivity. Qed.
Lemma py_add_readonly x c : readonly (py_add x c).
Proof. destruct x as [|q|t]; intros s; reflexivity. Qed.
Lemma py_div_readonly a x : readonly (py_div a x).
Proof. destruct x as [|q|t]; intros s; simpl; try reflexivity. now destruct (Qeq_bool q 0). Qed.

Lemma bind_readonly {A B} (m : M A) (k : A -> M B) :
  readonly m -> (forall a, readonly (k a)) -> readonly (bind m k).
Proof.
  intros Hm Hk s. unfold bind. specialize (Hm s).
  destruct (m s) as [[e|a] s1]; simpl in *; subst; [reflexivity | apply Hk].
Qed.

Lemma try_except_value_error_readonly {A} (m : M A) h :
  readonly m -> (forall msg, readonly (h msg)) -> readonly (try_except_value_error m h).
Proof.
  intros Hm Hh s. unfold try_except_value_error. specialize (Hm s).
  destruct (m s) as [[e|a] s1]; simpl in *; subst; [destruct e; try reflexivity; apply Hh | reflexivity].
Qed.

Lemma mapM_readonly {A B} (f : A -> M B) l :
  (forall x, readonly (f x)) -> readonly (mapM f l).
Proof.
  intros Hf. induction l as [|x l IH]; simpl.
  - apply ret_readonly.
  - apply bind_readonly; [apply Hf|]. intros y. apply bind_readonly; [exact IH|].
    intros ys. apply ret_readonly.
Qed.

#[local] Hint Resolve ret_readonly raise_readonly get_obj_readonly getattr_readonly
  lift_readonly dict_get_readonly py_sub_readonly py_add_readonly py_div_readonly
  mapM_readonly : pymonad.

Ltac readonly_tac :=
  repeat match goal with
    | |- readonly (bind _ _) => apply bind_readonly; [|intros]
    | |- readonly (try_except_value_error _ _) =>
        apply try_except_value_error_readonly; [|intros]
    | |- readonly (if ?b then _ else _) => destruct b
    | |- readonly (match ?x with _ => _ end) => destruct x
    | |- forall _, _ => intros
    end; auto with pymonad.

Lemma StateHA_constraint_arg_readonly c : readonly (StateHA_constraint_arg c).
Proof. unfold StateHA_constraint_arg. readonly_tac. Qed.
Lemma StateProps_constraint_arg_readonly c : readonly (StateProps_constraint_arg c).
Proof. unfold StateProps_constraint_arg. readonly_tac. Qed.
#[local] Hint Resolve StateHA_constraint_arg_readonly StateProps_constraint_arg_readonly : pymonad.

Lemma StateHA_get_prop_readonly o prop : readonly (StateHA_get_prop o prop).
Proof. unfold StateHA_get_prop. readonly_tac. Qed.
Lemma StateProps_get_prop_readonly o prop : readonly (StateProps_get_prop o prop).
Proof. unfold StateProps_get_prop. readonly_tac. Qed.
#[local] Hint Resolve StateHA_get_prop_readonly StateProps_get_prop_readonly : pymonad.

Lemma StateHA_getter_readonly o p code : readonly (StateHA_getter o p code).
Proof. unfold StateHA_getter. readonly_tac. Qed.
Lemma StateProps_getter_readonly o p code : readonly (StateProps_getter o p code).
Proof. unfold StateProps_getter. readonly_tac. Qed.
Lemma StateProps_getter_fluid_readonly o p code : readonly (StateProps_getter_fluid o p code).
Proof. unfold StateProps_getter_fluid. readonly_tac. Qed.
#[local] Hint Resolve StateHA_getter_readonly StateProps_getter_readonly
  StateProps_getter_fluid_readonly : pymonad.

Lemma StateHA_read_readonly o p : readonly (StateHA_read o p).
Proof. destruct p; simpl; readonly_tac. Qed.
Lemma StateProps_read_readonly o p : readonly (StateProps_read o p).
Proof. destruct p; simpl; readonly_tac. Qed.

(** ** Public mutating operations *)

(** The mutating entry points of each class: the property setters, the
    bulk [set(props)] (also run by [__init__(props)]), and for StateProps
    the [fluid] setter. *)
Inductive StateHA_op :=
| HAop_write (p : ha_prop) (v : pyval)
| HAop_set (props : list pyval).

Definition StateHA_run (o : StateHA_op) : M unit :=
  match o with
  | HAop_write p v => StateHA_write p v
  | HAop_set props => StateHA_set props
  end.

Inductive StateProps_op :=
| PRop_write (p : pr_prop) (v : pyval)
| PRop_fluid (v : pyval)
| PRop_set (props : list pyval).

Definition StateProps_run (o : StateProps_op) : M unit :=
  match o with
  | PRop_write p v => StateProps_write p v
  | PRop_fluid v => StateProps_set_fluid v
  | PRop_set props => StateProps_set props
  end.

(** ** Relations preserved by every step of a computation *)

Section Preserves.

Variable R : obj -> obj -> Prop.
Hypothesis R_refl : forall s, R s s.
Hypothesis R_trans : forall a b c, R a b -> R b c -> R a c.

Definition preserves {A} (m : M A) : Prop := forall s, R s (snd (m s)).

Lemma ret_preserves {A} (a : A) : preserves (ret a).
Proof. intros s. apply R_refl. Qed.
Lemma raise_preserves {A} e : preserves (A:=A) (raise e).
Proof. intros s. apply R_refl. Qed.

Lemma bind_preserves {A B} (m : M A) (k : A -> M B) :
  preserves m -> (forall a, preserves (k a)) -> preserves (bind m k).
Proof.
  intros Hm Hk s. unfold bind. specialize (Hm s).
  destruct (m s) as [[e|a] s1]; simpl in *; [exact Hm|].
  eapply R_trans; [exact Hm | apply Hk].
Qed.

Lemma get_bind_preserves {A} (k : obj -> M A) :
  (forall x, preserves (k x)) -> preserves (bind get_obj k).
Proof. intros Hk s. apply (Hk s s). Qed.

Lemma try_except_preserves {A} (m : M A) h :
  preserves m -> (forall e, preserves (h e)) -> preserves (try_except m h).
Proof.
  intros Hm Hh s. unfold try_except. specialize (Hm s).
  destruct (m s) as [[e|a] s1]; simpl in *; [|exact Hm].
  eapply R_trans; [exact Hm | apply Hh].
Qed.

Lemma try_except_value_error_preserves {A} (m : M A) h :
  preserves m -> (forall msg, preserves (h msg)) -> preserves (try_except_value_error m h).
Proof.
  intros Hm Hh s. unfold try_except_value_error. specialize (Hm s).
  destruct (m s) as [[e|a] s1]; simpl in *; [destruct e|]; try exact Hm.
  eapply R_trans; [exact Hm | apply Hh].
Qed.

End Preserves.

Ltac preserves_tac :=
  repeat match goal with
    | |- preserves _ (let _ := _ in _) => cbv zeta
    | |- preserves _ (bind get_obj _) => apply get_bind_preserves; intro; cbv beta
    | |- preserves _ (bind _ _) => apply bind_preserves; [auto.. | | intro]
    | |- preserves _ (try_except _ _) => apply try_except_preserves; [auto.. | | intro]
    | |- preserves _ (try_except_value_error _ _) =>
        apply try_except_value_error_preserves; [auto.. | | intro]
    | |- preserves _ (raise _) => apply raise_preserves; auto
    | |- preserves _ (ret _) => apply ret_preserves; auto
    | |- preserves _ (if ?b then _ else _) => destruct b
    | |- preserves _ (match ?x with _ => _ end) => destruct x
    end.

(** The [_version] attribute is never written. *)
Definition same_version (s s' : obj) : Prop :=
  attrs s' !! "_version" = attrs s !! "_version".

(** No name ever leaves the constraints set. *)
Definition cset_grows (s s' : obj) : Prop :=
  forall n, mem n (cset s) = true -> mem n (cset s') = true.

Lemma same_version_refl s : same_version s s.
Proof. reflexivity. Qed.
Lemma same_version_trans a b c : same_version a b -> same_version b c -> same_version a c.
Proof. unfold same_version. congruence. Qed.
Lemma cset_grows_refl s : cset_grows s s.
Proof. intros n H. exact H. Qed.
Lemma cset_grows_trans a b c : cset_grows a b -> cset_grows b c -> cset_grows a c.
Proof. unfold cset_grows. auto. Qed.

#[local] Hint Resolve same_version_refl same_version_trans cset_grows_refl cset_grows_trans : pymonad.

Lemma setattr_same_version k v :
  k <> "_version"%string -> preserves same_version (setattr k v).
Proof. intros Hk s. unfold same_version. simpl. now rewrite lookup_insert_ne by congruence. Qed.
Lemma cs_add_same_version x : preserves same_version (cs_add x).
Proof. intros s. reflexivity. Qed.
Lemma setattr_cset_grows k v : preserves cset_grows (setattr k v).
Proof. intros s n H. exact H. Qed.
Lemma cs_add_cset_grows x : preserves cset_grows (cs_add x).
Proof.
  intros s n H. simpl. unfold set_add. destruct (mem x (cset s)); [exact H|].
  unfold mem in *. rewrite existsb_app, H. reflexivity.
Qed.

Section OpsPreserve.

Variable R : obj -> obj -> Prop.
Hypothesis R_refl : forall s, R s s.
Hypothesis R_trans : forall a b c, R a b -> R b c -> R a c.
Hypothesis R_setattr : forall k v, k <> "_version"%string -> preserves R (setattr k v).
Hypothesis R_cs_add : forall x, preserves R (cs_add x).

Lemma StateHA_write_preserves p v : preserves R (StateHA_write p v).
Proof.
  unfold StateHA_write, state_setter_ha, validate_input_ha, StateHA_setter_body.
  preserves_tac; auto; apply R_setattr; destruct p; discriminate.
Qed.

Lemma StateProps_write_preserves p v : preserves R (StateProps_write p v).
Proof.
  unfold StateProps_write, state_setter_PROPS, validate_input_props, StateProps_setter_body.
  preserves_tac; auto; apply R_setattr; destruct p; discriminate.
Qed.

Lemma StateProps_set_fluid_preserves v : preserves R (StateProps_set_fluid v).
Proof.
  unfold StateProps_set_fluid.
  destruct v; try apply raise_preserves; auto; apply R_setattr; discriminate.
Qed.

Lemma StateHA_set_preserves props : preserves R (StateHA_set props).
Proof.
  remember (length props) as n eqn:Hn. revert props Hn.
  induction n as [n IH] using lt_wf_ind. intros props Hn.
  destruct props as [|name [|value rest]]; simpl.
  - apply ret_preserves; auto.
  - apply raise_preserves; auto.
  - assert (Hr : preserves R (StateHA_set rest)).
    { apply (IH (length rest)); [simpl in Hn; lia | reflexivity]. }
    destruct name as [|q|code]; try exact Hr.
    destruct (StateHA_set_map code); [|exact Hr].
    apply bind_preserves; auto. apply StateHA_write_preserves.
Qed.

Lemma StateProps_set_pairs_preserves props : preserves R (StateProps_set_pairs props).
Proof.
  remember (length props) as n eqn:Hn. revert props Hn.
  induction n as [n IH] using lt_wf_ind. intros props Hn.
  destruct props as [|name [|value rest]]; simpl.
  - apply ret_preserves; auto.
  - apply raise_preserves; auto.
  - assert (Hr : preserves R (StateProps_set_pairs rest)).
    { apply (IH (length rest)); [simpl in Hn; lia | reflexivity]. }
    destruct name as [|q|code]; try exact Hr.
    destruct (StateProps_set_map code); [|exact Hr].
    apply bind_preserves; [auto.. | | intros; exact Hr].
    apply try_except_value_error_preserves;
      [auto.. | apply StateProps_write_preserves | intros; apply ret_preserves; auto].
Qed.

Lemma StateProps_set_preserves props : preserves R (StateProps_set props).
Proof.
  unfold StateProps_set. destruct (Nat.leb 5 (length props)).
  - apply bind_preserves; auto.
    + apply StateProps_set_fluid_preserves.
    + intros. apply StateProps_set_pairs_preserves.
  - apply raise_preserves; auto.
Qed.

Lemma StateHA_run_preserves o : preserves R (StateHA_run o).
Proof. destruct o; simpl; [apply StateHA_write_preserves | apply StateHA_set_preserves]. Qed.

Lemma StateProps_run_preserves o : preserves R (StateProps_run o).
Proof.
  destruct o; simpl;
    [apply StateProps_write_preserves | apply StateProps_set_fluid_preserves
    | apply StateProps_set_preserves].
Qed.

End OpsPreserve.

Lemma StateHA_run_same_version o : preserves same_version (StateHA_run o).
Proof.
  exact (StateHA_run_preserves same_version same_version_refl same_version_trans
           setattr_same_version cs_add_same_version o).
Qed.

Lemma StateProps_run_same_version o : preserves same_version (StateProps_run o).
Proof.
  exact (StateProps_run_preserves same_version same_version_refl same_version_trans
           setattr_same_version cs_add_same_version o).
Qed.

Lemma StateHA_run_cset_grows o : preserves cset_grows (StateHA_run o).
Proof.
  exact (StateHA_run_preserves cset_grows cset_grows_refl cset_grows_trans
           (fun k v _ => setattr_cset_grows k v) cs_add_cset_grows o).
Qed.

Lemma StateProps_run_cset_grows o : preserves cset_grows (StateProps_run o).
Proof.
  exact (StateProps_run_preserves cset_grows cset_grows_refl cset_grows_trans
           (fun k v _ => setattr_cset_grows k v) cs_add_cset_grows o).
Qed.

(** ** C3: version counter and derived-value cache *)

(** Claim C3, counterexample: after P, T, R are set and a successful
    update of the temperature, the object has no [_version] attribute. *)
Lemma C3_counterexample :
  fst (StateHA_write HA_tempk (PNum (30315 # 100)) ha_PTR) = inr tt /\
  attrs (snd (StateHA_write HA_tempk (PNum (30315 # 100)) ha_PTR)) !! "_version" = None /\
  fst (getattr "_version" (snd (StateHA_write HA_tempk (PNum (30315 # 100)) ha_PTR)))
    = inl (AttributeError "_version").
Proof. vm_compute. repeat split. Qed.

(** Claim C3, as amended: no state has a version counter or a derived-value
    cache.  The constructors create no [_version] attribute and no public
    operation writes one; every property read leaves the object unchanged,
    so nothing a read computes is kept.  On a StateHA with three pins, a
    read of a non-pinned property other than [tempc] calls [get_prop] on the
    current object each time: the getter's own code, and ['V'] for
    [density], which returns [1/V]. *)
Theorem C3_no_version_no_cache :
  attrs StateHA_init !! "_version" = None /\
  attrs StateProps_empty !! "_version" = None /\
  (forall (o : StateHA_op) (s : obj),
      attrs (snd (StateHA_run o s)) !! "_version" = attrs s !! "_version") /\
  (forall (o : StateProps_op) (s : obj),
      attrs (snd (StateProps_run o s)) !! "_version" = attrs s !! "_version") /\
  (forall (HAPropsSI : string -> list (string * pyval) -> exc + Q) (p : ha_prop) (s : obj),
      snd (StateHA_read HAPropsSI p s) = s) /\
  (forall (PropsSI : string -> list (string * pyval) -> pyval -> exc + Q) (p : pr_prop) (s : obj),
      snd (StateProps_read PropsSI p s) = s) /\
  (forall (HAPropsSI : string -> list (string * pyval) -> exc + Q) (p : ha_prop) (s : obj),
      length (cset s) = 3%nat -> mem (ha_name p) (cset s) = false -> p <> HA_tempc ->
      (p = HA_density ->
         StateHA_read HAPropsSI p s =
           bind (StateHA_get_prop HAPropsSI "V") (fun vol => py_div 1 (PNum vol)) s) /\
      (p <> HA_density -> exists code,
         StateHA_read HAPropsSI p s =
           bind (StateHA_get_prop HAPropsSI code) (fun q => ret (PNum q)) s)).
Proof.
  split; [vm_compute; reflexivity|].
  split; [vm_compute; reflexivity|].
  split; [|split; [|split; [|split]]].
  - intros o s. exact (StateHA_run_same_version o s).
  - intros o s. exact (StateProps_run_same_version o s).
  - intros o p s. apply StateHA_read_readonly.
  - intros o p s. apply StateProps_read_readonly.
  - intros o p s Hl Hm Hc. split.
    + intros ->. simpl StateHA_read. rewrite bind_get_obj. cbv beta.
      change (ha_name HA_density) with "density"%string in Hm. rewrite Hm, Hl. reflexivity.
    + intros Hd. destruct p; try congruence; simpl StateHA_read;
        eexists; unfold StateHA_getter; cbv zeta; rewrite bind_get_obj; cbv beta;
        rewrite Hm, Hl; reflexivity.
Qed.

Lemma C3_witness :
  length (cset ha_PTR) = 3%nat /\ mem "density" (cset ha_PTR) = false /\
  StateHA_read HAPropsSI_reject HA_density ha_PTR =
    bind (StateHA_get_prop HAPropsSI_reject "V") (fun vol => py_div 1 (PNum vol)) ha_PTR.
Proof.
  assert (L : length (cset ha_PTR) = 3%nat) by (vm_compute; reflexivity).
  assert (D : mem (ha_name HA_density) (cset ha_PTR) = false) by (vm_compute; reflexivity).
  assert (N : HA_density <> HA_tempc) by discriminate.
  split; [exact L|]. split; [exact D|].
  exact (proj1 (proj2 (proj2 (proj2 (proj2 (proj2 (proj2 C3_no_version_no_cache)))))
           HAPropsSI_reject HA_density ha_PTR L D N) eq_refl).
Defined.

(** ** C9: reset and replace *)

(** Claim C9, counterexample: no public operation of StateHA (a property
    setter or the bulk [set]) can take the complete state P, T, R to one
    where [press] is no longer pinned, as [replace('press', ...)] would. *)
Lemma C9_counterexample :
  ~ exists (o : StateHA_op) (r : exc + unit) (s' : obj),
      StateHA_run o ha_PTR = (r, s') /\ mem "press" (cset s') = false.
Proof.
  intros (o & r & s' & E & Hm).
  pose proof (StateHA_run_cset_grows o ha_PTR) as Hg.
  specialize (Hg "press"%string). rewrite E in Hg. simpl in Hg.
  rewrite Hg in Hm; [discriminate | reflexivity].
Qed.

(** Claim C9, as amended: neither state kind has [reset] or [replace].  Its
    public mutating operations are the property setters, the bulk
    [set(props)] and, for StateProps, the [fluid] setter; none of them ever
    removes a name from the constraints set (also when it raises), so a pin
    can be updated in place but never swapped for another. *)
Theorem C9_no_pin_removal :
  (forall (o : StateHA_op) (s : obj) (n : string),
      mem n (cset s) = true -> mem n (cset (snd (StateHA_run o s))) = true) /\
  (forall (o : StateProps_op) (s : obj) (n : string),
      mem n (cset s) = true -> mem n (cset (snd (StateProps_run o s))) = true).
Proof.
  split; intros o s n Hn.
  - exact (StateHA_run_cset_grows o s n Hn).
  - exact (StateProps_run_cset_grows o s n Hn).
Qed.

Lemma C9_witness :
  mem "press" (cset (snd (StateHA_run (HAop_write HA_humrat (PNum (1 # 200))) ha_PTR))) = true.
Proof. apply (proj1 C9_no_pin_removal). vm_compute. reflexivity. Defined.

(** ** Reads on StateProps objects where [vol] is pinned *)

(** [StateProps(fluid='Water')] *)
Definition water : obj := snd (StateProps_init None (Some (PStr "Water")) StateProps_empty).

(** [StateProps(fluid='Water')] with [press = 101325] then [vol = 1.0]. *)
Definition water_P_vol : obj :=
  snd ((StateProps_write PR_press (PNum 101325) ;; StateProps_write PR_vol (PNum 1)) water).

(** [StateProps(fluid='Water')] with [tempk = 300] then [vol = 1.0]. *)
Definition water_T_vol : obj :=
  snd ((StateProps_write PR_tempk (PNum 300) ;; StateProps_write PR_vol (PNum 1)) water).

(** [StateProps(fluid='')] with [press = 101325] then [vol = 1.0]. *)
Definition nofluidname_P_vol : obj :=
  snd ((StateProps_init None (Some (PStr "")) ;;
        StateProps_write PR_press (PNum 101325) ;; StateProps_write PR_vol (PNum 1))
       StateProps_empty).

(** An oracle answering 0 to every query. *)
Definition PropsSI_zero : string -> list (string * pyval) -> pyval -> exc + Q :=
  fun _ _ _ => inr 0.

Lemma StateProps_constraint_arg_ok o s x :
  o <> PR_vol -> attrs s !! ("_" ++ pr_name o)%string = Some (PNum x) ->
  exists a, StateProps_constraint_arg (pr_name o) s = (inr a, s).
Proof.
  intros Ho Hx.
  assert (Hc : exists c, assoc (pr_name o) StateProps_prop_map = Some c)
    by (destruct o; [eexists; reflexivity ..| congruence]).
  destruct Hc as [c Hc].
  unfold StateProps_constraint_arg, bind, dict_get. rewrite Hc. simpl.
  unfold getattr. rewrite Hx.
  destruct (String.eqb (pr_name o) "tempc"); simpl; eexists; reflexivity.
Qed.

Lemma StateProps_constraint_arg_vol s :
  StateProps_constraint_arg "vol" s = (inl (KeyError "vol"), s).
Proof. reflexivity. Qed.

(** With [vol] and one other property [o] pinned and a non-empty fluid name,
    [get_prop] raises [KeyError('vol')] while building the oracle arguments,
    before the oracle is called. *)
Lemma StateProps_get_prop_vol_keyerror PropsSI code s o f x :
  attrs s !! "_fluid" = Some (PStr f) -> f <> ""%string -> o <> PR_vol ->
  (cset s = [pr_name o; "vol"] \/ cset s = ["vol"; pr_name o]) ->
  attrs s !! ("_" ++ pr_name o)%string = Some (PNum x) ->
  StateProps_get_prop PropsSI code s = (inl (KeyError "vol"), s).
Proof.
  intros Hf Hne Ho Hc Hx.
  assert (Hl : length (cset s) = 2%nat) by (destruct Hc as [-> | ->]; reflexivity).
  unfold StateProps_get_prop. rewrite bind_get_obj. cbv beta.
  rewrite Hl. change (Nat.ltb 2 2) with false. cbv iota.
  unfold bind at 1, getattr at 1. cbv beta. rewrite Hf. cbv beta iota.
  change (truthy (PStr f)) with (negb (String.eqb f "")). rewrite (proj2 (String.eqb_neq f "") Hne).
  change (negb (negb false)) with false. cbv iota.
  destruct Hc as [Hc | Hc]; rewrite Hc.
  - destruct (StateProps_constraint_arg_ok o s x Ho Hx) as [a Ha].
    cbn [mapM]. unfold bind. cbv beta. rewrite Ha. cbv beta iota.
    rewrite StateProps_constraint_arg_vol. reflexivity.
  - cbn [mapM]. unfold bind. cbv beta. rewrite StateProps_constraint_arg_vol. reflexivity.
Qed.

Lemma StateProps_getter_get_prop_error PropsSI p code s e :
  mem (pr_name p) (cset s) = false -> length (cset s) = 2%nat ->
  StateProps_get_prop PropsSI code s = (inl e, s) ->
  StateProps_getter PropsSI p code s = (inl e, s).
Proof.
  intros Hm Hl Hg. unfold StateProps_getter. cbv zeta. rewrite bind_get_obj. cbv beta.
  rewrite Hm, Hl. change (Nat.eqb 2 2) with true. cbv iota.
  unfold bind at 1. rewrite Hg. reflexivity.
Qed.

Lemma StateProps_getter_fluid_get_prop_error PropsSI p code s e :
  mem (pr_name p) (cset s) = false -> length (cset s) = 2%nat -> fluid_is_none s = false ->
  StateProps_get_prop PropsSI code s = (inl e, s) ->
  StateProps_getter_fluid PropsSI p code s = (inl e, s).
Proof.
  intros Hm Hl Hn Hg. unfold StateProps_getter_fluid. rewrite bind_get_obj. cbv beta.
  rewrite Hm, Hl, Hn. change (Nat.eqb 2 2 && negb false) with true. cbv iota.
  unfold bind at 1. rewrite Hg. reflexivity.
Qed.

Lemma StateProps_mem_other_pin s o p :
  (cset s = [pr_name o; "vol"] \/ cset s = ["vol"; pr_name o]) ->
  p <> o -> p <> PR_vol -> mem (pr_name p) (cset s) = false.
Proof.
  intros Hc Hpo Hpv.
  destruct Hc as [-> | ->]; destruct p, o; try congruence; reflexivity.
Qed.

(** ** Claims C7, C8 and C10: reads *)

(** C7 (code bug). The claim: reading a pinned property returns the stored
    value. On [StateProps(fluid='Water')] with [press = 101325] then
    [vol = 1.0], [vol] is pinned, yet [state.vol] raises [KeyError('vol')]
    for every oracle: the [vol] getter does not look at the constraints set,
    goes through the [dens] getter and [get_prop], and ['vol'] has no entry in
    [StateProps._prop_map]. *)
Theorem C7_pinned_vol_read_raises PropsSI :
  mem "vol" (cset water_P_vol) = true /\
  StateProps_read PropsSI PR_vol water_P_vol = (inl (KeyError "vol"), water_P_vol).
Proof. split; vm_compute; reflexivity. Qed.

(** C8 (code bug). The claim: reading a non-pinned property of an incomplete
    state, in particular of a freshly constructed one, returns a sentinel and
    does not raise. [StateHA().tempc] and [StateProps(fluid='Water').tempc]
    raise [TypeError] for every oracle: the [tempc] getter computes
    [self.tempk - 273.15] with [self.tempk] equal to [None]. *)
Theorem C8_fresh_tempc_read_raises HAPropsSI PropsSI :
  cset StateHA_init = [] /\ cset water = [] /\
  StateHA_read HAPropsSI HA_tempc StateHA_init =
    (inl (TypeError "unsupported operand type(s) for -"), StateHA_init) /\
  StateProps_read PropsSI PR_tempc water =
    (inl (TypeError "unsupported operand type(s) for -"), water).
Proof. repeat split; vm_compute; reflexivity. Qed.

(** C10 counterexample. With [vol] and [tempk] pinned and [fluid='Water'],
    the non-pinned [tempc] is read from [_tempk] without the oracle; with
    [vol] and [press] pinned and [fluid=''], [enthalpy] raises the
    [ValueError] of the fluid check, not a [KeyError]. *)
Lemma C10_counterexample :
  cset water_T_vol = ["tempk"; "vol"] /\
  StateProps_read PropsSI_zero PR_tempc water_T_vol =
    (inr (PNum (300 - (27315 # 100))), water_T_vol) /\
  cset nofluidname_P_vol = ["press"; "vol"] /\
  fst (StateProps_read PropsSI_zero PR_enthalpy nofluidname_P_vol) =
    inl (ValueError "Fluid type must be set before calculating properties").
Proof. repeat split; vm_compute; reflexivity. Qed.

(** C10 (amended). Let a StateProps object have a non-empty fluid name and
    exactly two pins, [vol] and some other property [o] holding a number.
    Then, whatever the oracle, reading any property [p] other than [o]
    raises [KeyError('vol')] from the argument loop of [get_prop], except
    [tempc] when [o] is [tempk] (read from [_tempk]) and [vol] when [o] is
    [dens] (read as [1 / dens]). *)
Theorem C10_vol_pin_breaks_reads PropsSI s o p f x :
  attrs s !! "_fluid" = Some (PStr f) -> f <> ""%string -> o <> PR_vol ->
  (cset s = [pr_name o; "vol"] \/ cset s = ["vol"; pr_name o]) ->
  attrs s !! ("_" ++ pr_name o)%string = Some (PNum x) ->
  p <> o -> ~ (p = PR_tempc /\ o = PR_tempk) -> ~ (p = PR_vol /\ o = PR_dens) ->
  StateProps_read PropsSI p s = (inl (KeyError "vol"), s).
Proof.
  intros Hf Hne Ho Hc Hx Hpo Htc Hvd.
  assert (Hl : length (cset s) = 2%nat) by (destruct Hc as [-> | ->]; reflexivity).
  assert (Hn : fluid_is_none s = false) by (unfold fluid_is_none; rewrite Hf; reflexivity).
  assert (Hg : forall code, StateProps_get_prop PropsSI code s = (inl (KeyError "vol"), s))
    by (intro; eapply StateProps_get_prop_vol_keyerror; eauto).
  assert (Hm : forall q, q <> o -> q <> PR_vol -> mem (pr_name q) (cset s) = false)
    by (intros; eapply StateProps_mem_other_pin; eauto).
  assert (Hgt : forall q code, q <> o -> q <> PR_vol ->
            StateProps_getter PropsSI q code s = (inl (KeyError "vol"), s))
    by (intros; apply StateProps_getter_get_prop_error; auto).
  assert (Hgf : forall q code, q <> o -> q <> PR_vol ->
            StateProps_getter_fluid PropsSI q code s = (inl (KeyError "vol"), s))
    by (intros; apply StateProps_getter_fluid_get_prop_error; auto).
  destruct p; simpl StateProps_read;
    try (apply Hgt; congruence); try (apply Hgf; congruence).
  - (* tempc *)
    assert (Htk : o <> PR_tempk) by (intros ->; apply Htc; auto).
    pose proof (Hm PR_tempc Hpo ltac:(discriminate)) as Hm1.
    pose proof (Hm PR_tempk (not_eq_sym Htk) ltac:(discriminate)) as Hm2.
    simpl pr_name in Hm1, Hm2.
    rewrite bind_get_obj. cbv beta. rewrite Hm1, Hm2. cbv iota.
    unfold bind at 1. rewrite Hgt by (congruence || discriminate). reflexivity.
  - (* quality *)
    pose proof (Hm PR_quality Hpo ltac:(discriminate)) as Hm1. simpl pr_name in Hm1.
    rewrite bind_get_obj. cbv beta. rewrite Hm1, Hl, Hn.
    change (Nat.eqb 2 2 && negb false) with true. cbv iota.
    unfold try_except_value_error, bind at 1. rewrite Hg. reflexivity.
  - (* vol *)
    assert (Hd : o <> PR_dens) by (intros ->; apply Hvd; auto).
    unfold bind at 1. rewrite Hgt by (congruence || discriminate). reflexivity.
Qed.

(** At [StateProps(fluid='Water')] with [press = 101325] and [vol = 1.0],
    reading [enthalpy] raises [KeyError('vol')]. *)
Lemma C10_witness :
  attrs water_P_vol !! "_fluid" = Some (PStr "Water") /\
  cset water_P_vol = [pr_name PR_press; "vol"] /\
  attrs water_P_vol !! ("_" ++ pr_name PR_press)%string = Some (PNum 101325) /\
  StateProps_read PropsSI_zero PR_enthalpy water_P_vol = (inl (KeyError "vol"), water_P_vol).
Proof.
  split; [vm_compute; reflexivity |].
  split; [vm_compute; reflexivity |].
  split; [vm_compute; reflexivity |].
  apply (C10_vol_pin_breaks_reads PropsSI_zero water_P_vol PR_press PR_enthalpy "Water" 101325);
    try (vm_compute; reflexivity); try discriminate; try (intros [? ?]; discriminate).
  left; vm_compute; reflexivity.
Defined.

(** * Further properties of the code *)

(** ** Objects reached by public operations *)


(** ** The constraints set has no duplicates *)



Lemma mem_false_not_in x l : mem x l = false -> x ∉ l.
Proof.
  intros Hm Hx. apply list_elem_of_In in Hx.
  assert (existsb (String.eqb x) l = true)
    by (apply existsb_exists; exists x; split; [exact Hx | apply String.eqb_refl]).
  unfold mem in Hm. congruence.
Qed.

Lemma mem_true_in x l : mem x l = true -> x ∈ l.
Proof.
  unfold mem. intros Hm. apply existsb_exists in Hm as (y & Hy & E).
  apply String.eqb_eq in E. subst y. now apply list_elem_of_In.
Qed.

Lemma in_mem_true x l : x ∈ l -> mem x l = true.
Proof.
  intros Hx. destruct (mem x l) eqn:E; [reflexivity|].
  exfalso. exact (mem_false_not_in x l E Hx).
Qed.








(** ** [StateHA.constraints] *)

Lemma py_sorted_spec l : Sorted str_le (py_sorted l) /\ py_sorted l ≡ₚ l.
Proof.
  split.
  - apply Sorted_merge_sort. intros a b. apply String.leb_total.
  - apply merge_sort_Permutation.
Qed.


(** ** A successful write, and reading back *)

Lemma mem_set_add_self x l : mem x (set_add x l) = true.
Proof.
  unfold set_add. destruct (mem x l) eqn:E; [exact E|].
  unfold mem. rewrite existsb_app. simpl. rewrite String.eqb_refl. apply orb_true_r.
Qed.

Lemma mem_set_add_other x y l : x <> y -> mem x (set_add y l) = mem x l.
Proof.
  intros Hxy. unfold set_add. destruct (mem y l); [reflexivity|].
  unfold mem. rewrite existsb_app. simpl.
  rewrite (proj2 (String.eqb_neq x y) Hxy). now rewrite !orb_false_r.
Qed.

Lemma StateHA_write_success p v s s' :
  StateHA_write p v s = (inr tt, s') ->
  exists q s1, v = PNum q /\ ha_range_check p q = None /\
    StateHA_setter_body p q s = (inr tt, s1) /\
    s' = mk_obj (attrs s1) (set_add (ha_name p) (cset s)).
Proof.
  intros H.
  assert (Hv : (exists q, v = PNum q /\ ha_range_check p q = None) \/
               (forall q, v = PNum q -> ha_range_check p q <> None)).
  { destruct v as [|q|t]; [right; discriminate| |right; discriminate].
    destruct (ha_range_check p q) eqn:Hr; [right | left; eauto].
    intros q' [= <-]. congruence. }
  destruct Hv as [(q & -> & Hr) | Hv].
  2:{ destruct (StateHA_write_error_cases p v s Hv) as [e He]. rewrite H in He. discriminate. }
  destruct (StateHA_write_ok p q s Hr) as (s1 & E1 & _ & E).
  rewrite H in E. injection E as ->. exists q, s1. auto.
Qed.

Lemma StateProps_write_success p v s s' :
  StateProps_write p v s = (inr tt, s') ->
  exists q s1, v = PNum q /\ fluid_is_none s = false /\ pr_accepts p q = true /\
    StateProps_setter_body p q s = (inr tt, s1) /\
    s' = mk_obj (attrs s1) (set_add (pr_name p) (cset s)).
Proof.
  intros H.
  destruct (fluid_is_none s) eqn:Hf.
  { destruct (StateProps_write_error_cases p v s (or_introl Hf)) as [e He].
    rewrite H in He. discriminate. }
  assert (Hv : (exists q, v = PNum q /\ pr_accepts p q = true) \/
               (forall q, v = PNum q -> pr_accepts p q = false)).
  { destruct v as [|q|t]; [right; discriminate| |right; discriminate].
    destruct (pr_accepts p q) eqn:Ha; [left; eauto | right].
    intros q' [= <-]. exact Ha. }
  destruct Hv as [(q & -> & Ha) | Hv].
  2:{ destruct (StateProps_write_error_cases p v s (or_intror Hv)) as [e He].
      rewrite H in He. discriminate. }
  destruct (StateProps_write_ok p q s Hf Ha) as (s1 & E1 & _ & E).
  rewrite H in E. injection E as ->. exists q, s1. auto.
Qed.

Lemma StateProps_setter_body_stores p q s s1 :
  p <> PR_vol -> StateProps_setter_body p q s = (inr tt, s1) ->
  attrs s1 !! ("_" ++ pr_name p)%string = Some (PNum q).
Proof.
  intros Hp. destruct p; simpl; intros H; try congruence;
    try (inversion H; subst; simpl; now rewrite lookup_insert_eq).
  inversion H; subst; simpl. rewrite lookup_insert_ne by discriminate.
  now rewrite lookup_insert_eq.
Qed.

Lemma StateHA_getter_pinned o p code s :
  mem (ha_name p) (cset s) = true ->
  StateHA_getter o p code s = getattr ("_" ++ ha_name p)%string s.
Proof. intros Hm. unfold StateHA_getter. cbv zeta. rewrite bind_get_obj. cbv beta. now rewrite Hm. Qed.

Lemma StateProps_getter_pinned o p code s :
  mem (pr_name p) (cset s) = true ->
  StateProps_getter o p code s = getattr ("_" ++ pr_name p)%string s.
Proof. intros Hm. unfold StateProps_getter. cbv zeta. rewrite bind_get_obj. cbv beta. now rewrite Hm. Qed.

Lemma StateProps_getter_fluid_pinned o p code s :
  mem (pr_name p) (cset s) = true ->
  StateProps_getter_fluid o p code s = getattr ("_" ++ pr_name p)%string s.
Proof. intros Hm. unfold StateProps_getter_fluid. rewrite bind_get_obj. cbv beta. now rewrite Hm. Qed.

Lemma getattr_some k v s : attrs s !! k = Some v -> getattr k s = (inr v, s).
Proof. intros H. unfold getattr. now rewrite H. Qed.

(** Reading back what was written: after a successful [state.p = v], the
    getter of [p] returns [v] itself, whatever the oracle, on a StateHA for
    every property and on a StateProps for every property but [vol]. *)
Theorem write_then_read_returns_value :
  (forall HAPropsSI p q s s',
      StateHA_write p (PNum q) s = (inr tt, s') ->
      StateHA_read HAPropsSI p s' = (inr (PNum q), s')) /\
  (forall PropsSI p q s s',
      p <> PR_vol ->
      StateProps_write p (PNum q) s = (inr tt, s') ->
      StateProps_read PropsSI p s' = (inr (PNum q), s')).
Proof.
  split.
  - intros o p q s s' H.
    destruct (StateHA_write_success p (PNum q) s s' H) as (q' & s1 & [= <-] & _ & E1 & ->).
    pose proof (StateHA_setter_body_stores p q s s1 E1) as Hst.
    pose proof (mem_set_add_self (ha_name p) (cset s)) as Hm.
    assert (Hg : getattr ("_" ++ ha_name p)%string (mk_obj (attrs s1) (set_add (ha_name p) (cset s)))
                 = (inr (PNum q), mk_obj (attrs s1) (set_add (ha_name p) (cset s))))
      by (apply getattr_some; exact Hst).
    destruct p; simpl StateHA_read; try (rewrite StateHA_getter_pinned by exact Hm; exact Hg);
      rewrite bind_get_obj; cbv beta; cbn [cset]; simpl ha_name in Hm, Hg; rewrite Hm; exact Hg.
  - intros o p q s s' Hp H.
    destruct (StateProps_write_success p (PNum q) s s' H) as (q' & s1 & [= <-] & _ & _ & E1 & ->).
    pose proof (StateProps_setter_body_stores p q s s1 Hp E1) as Hst.
    pose proof (mem_set_add_self (pr_name p) (cset s)) as Hm.
    assert (Hg : getattr ("_" ++ pr_name p)%string (mk_obj (attrs s1) (set_add (pr_name p) (cset s)))
                 = (inr (PNum q), mk_obj (attrs s1) (set_add (pr_name p) (cset s))))
      by (apply getattr_some; exact Hst).
    destruct p; simpl StateProps_read; try congruence;
      try (rewrite StateProps_getter_pinned by exact Hm; exact Hg);
      try (rewrite StateProps_getter_fluid_pinned by exact Hm; exact Hg);
      rewrite bind_get_obj; cbv beta; cbn [cset]; simpl pr_name in Hm, Hg; rewrite Hm; exact Hg.
Qed.

(** ** Setters that store a second attribute *)

(** Writing [tempc] also stores the Kelvin value in [_tempk] without
    pinning [tempk]: the membership of ["tempk"] in the constraints set is
    unchanged, and when [tempk] is already pinned its stored value is
    replaced, so reading [tempk] returns the new Kelvin value, on both
    classes and whatever the oracle. *)
Theorem tempc_write_updates_tempk :
  (forall HAPropsSI q s s',
      StateHA_write HA_tempc (PNum q) s = (inr tt, s') ->
      attrs s' !! "_tempk" = Some (PNum (q + (27315 # 100))) /\
      mem "tempk" (cset s') = mem "tempk" (cset s) /\
      (mem "tempk" (cset s) = true ->
       StateHA_read HAPropsSI HA_tempk s' = (inr (PNum (q + (27315 # 100))), s'))) /\
  (forall PropsSI q s s',
      StateProps_write PR_tempc (PNum q) s = (inr tt, s') ->
      attrs s' !! "_tempk" = Some (PNum (q + (27315 # 100))) /\
      mem "tempk" (cset s') = mem "tempk" (cset s) /\
      (mem "tempk" (cset s) = true ->
       StateProps_read PropsSI PR_tempk s' = (inr (PNum (q + (27315 # 100))), s'))).
Proof.
  split.
  - intros o q s s' H.
    destruct (StateHA_write_success HA_tempc (PNum q) s s' H) as (q' & s1 & [= <-] & _ & E1 & ->).
    simpl in E1. injection E1 as <-.
    assert (Hk : attrs (mk_obj (<["_tempk" := PNum (q + (27315 # 100))]>
                                  (<["_tempc" := PNum q]> (attrs s))) (cset s))
                 !! "_tempk" = Some (PNum (q + (27315 # 100))))
      by (simpl; apply lookup_insert_eq).
    split; [exact Hk|].
    assert (Hm : mem "tempk" (set_add "tempc" (cset s)) = mem "tempk" (cset s))
      by (apply mem_set_add_other; discriminate).
    split; [exact Hm|].
    intros Ht. simpl StateHA_read. rewrite StateHA_getter_pinned.
    + apply getattr_some. exact Hk.
    + simpl. rewrite Hm. exact Ht.
  - intros o q s s' H.
    destruct (StateProps_write_success PR_tempc (PNum q) s s' H)
      as (q' & s1 & [= <-] & _ & _ & E1 & ->).
    simpl in E1. injection E1 as <-.
    assert (Hk : attrs (mk_obj (<["_tempk" := PNum (q + (27315 # 100))]>
                                  (<["_tempc" := PNum q]> (attrs s))) (cset s))
                 !! "_tempk" = Some (PNum (q + (27315 # 100))))
      by (simpl; apply lookup_insert_eq).
    split; [exact Hk|].
    assert (Hm : mem "tempk" (set_add "tempc" (cset s)) = mem "tempk" (cset s))
      by (apply mem_set_add_other; discriminate).
    split; [exact Hm|].
    intros Ht. simpl StateProps_read. rewrite StateProps_getter_pinned.
    + apply getattr_some. exact Hk.
    + simpl. rewrite Hm. exact Ht.
Qed.

(** Writing [vol] on a StateProps pins ["vol"] but stores [1 / vol] in
    [_dens]: ["dens"] keeps its membership in the constraints set, and when
    [dens] is already pinned its stored value is replaced, so reading
    [dens] returns [1 / vol], whatever the oracle. *)
Theorem StateProps_vol_write_updates_dens PropsSI q s s' :
  StateProps_write PR_vol (PNum q) s = (inr tt, s') ->
  attrs s' !! "_dens" = Some (PNum (1 / q)) /\
  mem "vol" (cset s') = true /\
  mem "dens" (cset s') = mem "dens" (cset s) /\
  (mem "dens" (cset s) = true ->
   StateProps_read PropsSI PR_dens s' = (inr (PNum (1 / q)), s')).
Proof.
  intros H.
  destruct (StateProps_write_success PR_vol (PNum q) s s' H)
    as (q' & s1 & [= <-] & _ & _ & E1 & ->).
  simpl in E1. destruct (qle q 0); [discriminate|]. destruct (qlt 1000 q); [discriminate|].
  injection E1 as <-.
  assert (Hd : attrs (mk_obj (<["_dens" := PNum (1 / q)]> (attrs s)) (cset s))
               !! "_dens" = Some (PNum (1 / q)))
    by (simpl; apply lookup_insert_eq).
  split; [exact Hd|]. split; [apply mem_set_add_self|].
  assert (Hm : mem "dens" (set_add "vol" (cset s)) = mem "dens" (cset s))
    by (apply mem_set_add_other; discriminate).
  split; [exact Hm|].
  intros Ht. simpl StateProps_read. rewrite StateProps_getter_pinned.
  - apply getattr_some. exact Hd.
  - simpl. rewrite Hm. exact Ht.
Qed.

(** ** Reads on objects that do not have exactly the required pin count *)

Lemma StateHA_getter_not_three o p code s :
  length (cset s) <> 3%nat ->
  StateHA_getter o p code s = getattr ("_" ++ ha_name p)%string s.
Proof.
  intros Hl. unfold StateHA_getter. cbv zeta. rewrite bind_get_obj. cbv beta.
  destruct (mem (ha_name p) (cset s)); [reflexivity|].
  apply Nat.eqb_neq in Hl. now rewrite Hl.
Qed.

Lemma StateProps_getter_not_two o p code s :
  length (cset s) <> 2%nat ->
  StateProps_getter o p code s = getattr ("_" ++ pr_name p)%string s.
Proof.
  intros Hl. unfold StateProps_getter. cbv zeta. rewrite bind_get_obj. cbv beta.
  destruct (mem (pr_name p) (cset s)); [reflexivity|].
  apply Nat.eqb_neq in Hl. now rewrite Hl.
Qed.

Lemma StateProps_getter_fluid_not_two o p code s :
  length (cset s) <> 2%nat ->
  StateProps_getter_fluid o p code s =
    (if mem (pr_name p) (cset s) then getattr ("_" ++ pr_name p)%string s else (inr PNone, s)).
Proof.
  intros Hl. unfold StateProps_getter_fluid. rewrite bind_get_obj. cbv beta.
  destruct (mem (pr_name p) (cset s)); [reflexivity|].
  apply Nat.eqb_neq in Hl. now rewrite Hl.
Qed.

Lemma bind_congr_readonly {A B} (m1 m2 : M A) (k1 k2 : A -> M B) s :
  m1 s = m2 s -> readonly m1 -> (forall a, k1 a s = k2 a s) ->
  bind m1 k1 s = bind m2 k2 s.
Proof.
  intros E Hro Hk. unfold bind. pose proof (Hro s) as Hs. rewrite E in Hs |- *.
  destruct (m2 s) as [[e|a] s1]; simpl in Hs; subst s1; [reflexivity | apply Hk].
Qed.

(** A StateHA whose constraints set does not have exactly three names never
    calls [HAPropsSI] when read: every getter but [tempc] returns the
    stored attribute ([None] when never set, a stale value when more than
    three names are pinned), and [tempc] returns [_tempc] when pinned and
    [_tempk - 273.15] otherwise. *)
Theorem StateHA_read_without_three_pins HAPropsSI s :
  length (cset s) <> 3%nat ->
  (forall p, p <> HA_tempc -> StateHA_read HAPropsSI p s = getattr ("_" ++ ha_name p)%string s) /\
  StateHA_read HAPropsSI HA_tempc s =
    (if mem "tempc" (cset s) then getattr "_tempc" s
     else (let* k := getattr "_tempk" in py_sub k (27315 # 100)) s).
Proof.
  intros Hl. split.
  - intros p Hp. destruct p; try congruence; simpl StateHA_read;
      try (apply StateHA_getter_not_three; exact Hl).
    rewrite bind_get_obj. cbv beta. destruct (mem "density" (cset s)); [reflexivity|].
    apply Nat.eqb_neq in Hl. now rewrite Hl.
  - simpl StateHA_read. rewrite bind_get_obj. cbv beta.
    destruct (mem "tempc" (cset s)); [reflexivity|].
    destruct (mem "tempk" (cset s)); [reflexivity|].
    unfold bind. rewrite StateHA_getter_not_three by exact Hl. reflexivity.
Qed.

(** A StateProps whose constraints set does not have exactly two names
    never calls [PropsSI] when read: the result of every getter is the same
    for any two oracles; [tempk], [press] and [dens] return the stored
    attribute, and [quality], [enthalpy], [entropy], [cp] and [cv] return
    the stored value when pinned and [None] otherwise. *)
Theorem StateProps_read_without_two_pins s :
  length (cset s) <> 2%nat ->
  (forall PropsSI1 PropsSI2 p, StateProps_read PropsSI1 p s = StateProps_read PropsSI2 p s) /\
  (forall PropsSI p, p = PR_tempk \/ p = PR_press \/ p = PR_dens ->
     StateProps_read PropsSI p s = getattr ("_" ++ pr_name p)%string s) /\
  (forall PropsSI p,
     p = PR_quality \/ p = PR_enthalpy \/ p = PR_entropy \/ p = PR_cp \/ p = PR_cv ->
     StateProps_read PropsSI p s =
       (if mem (pr_name p) (cset s) then getattr ("_" ++ pr_name p)%string s
        else (inr PNone, s))).
Proof.
  intros Hl.
  assert (Hq : forall o, StateProps_read o PR_quality s =
            (if mem "quality" (cset s) then getattr "_quality" s else (inr PNone, s))).
  { intros o. simpl StateProps_read. rewrite bind_get_obj. cbv beta.
    destruct (mem "quality" (cset s)); [reflexivity|].
    apply Nat.eqb_neq in Hl. now rewrite Hl. }
  split; [|split].
  - intros o1 o2 p. destruct p; simpl StateProps_read;
      try (rewrite !StateProps_getter_not_two by exact Hl; reflexivity);
      try (rewrite !StateProps_getter_fluid_not_two by exact Hl; reflexivity).
    + rewrite !bind_get_obj. cbv beta.
      destruct (mem "tempc" (cset s)); [reflexivity|].
      destruct (mem "tempk" (cset s)); [reflexivity|].
      unfold bind. rewrite !StateProps_getter_not_two by exact Hl. reflexivity.
    + pose proof (Hq o1) as H1. pose proof (Hq o2) as H2. simpl StateProps_read in H1, H2.
      rewrite H1, H2. reflexivity.
    + assert (Hd : StateProps_getter o1 PR_dens "D" s = StateProps_getter o2 PR_dens "D" s)
        by (rewrite !StateProps_getter_not_two by exact Hl; reflexivity).
      apply bind_congr_readonly; [exact Hd | apply StateProps_getter_readonly|].
      intros d. destruct d; try reflexivity;
        (apply bind_congr_readonly; [exact Hd | apply StateProps_getter_readonly | reflexivity]).
  - intros o p [-> | [-> | ->]]; apply StateProps_getter_not_two; exact Hl.
  - intros o p Hp. destruct Hp as [-> | [-> | [-> | [-> | ->]]]];
      [apply Hq | ..]; apply StateProps_getter_fluid_not_two; exact Hl.
Qed.

(** ** The oracle call made by [get_prop] *)

Lemma StateHA_constraint_arg_value c code q s :
  assoc c StateHA_prop_map = Some code ->
  attrs s !! ("_" ++ c)%string = Some (PNum q) ->
  StateHA_constraint_arg c s =
    (inr (code, PNum (if String.eqb c "tempc" then q + (27315 # 100) else q)), s).
Proof.
  intros Ha Hx. unfold StateHA_constraint_arg, bind, dict_get. rewrite Ha.
  unfold ret at 1. unfold getattr at 1. rewrite Hx.
  destruct (String.eqb c "tempc"); reflexivity.
Qed.

Lemma StateProps_constraint_arg_value c code q s :
  assoc c StateProps_prop_map = Some code ->
  attrs s !! ("_" ++ c)%string = Some (PNum q) ->
  StateProps_constraint_arg c s =
    (inr (code, PNum (if String.eqb c "tempc" then q + (27315 # 100) else q)), s).
Proof.
  intros Ha Hx. unfold StateProps_constraint_arg, bind, dict_get. rewrite Ha.
  unfold ret at 1. unfold getattr at 1. rewrite Hx.
  destruct (String.eqb c "tempc"); reflexivity.
Qed.

(** The oracle argument built for a pinned name [c]: its CoolProp code
    from [map] and its stored number, Celsius converted to Kelvin. *)
Definition oracle_arg_of (map : list (string * string)) (s : obj) (c : string)
    (a : string * pyval) : Prop :=
  exists code q, assoc c map = Some code /\ attrs s !! ("_" ++ c)%string = Some (PNum q) /\
    a = (code, PNum (if String.eqb c "tempc" then q + (27315 # 100) else q)).

Lemma mapM_constraint_arg f map s l :
  (forall c code q, assoc c map = Some code -> attrs s !! ("_" ++ c)%string = Some (PNum q) ->
     f c s = (inr (code, PNum (if String.eqb c "tempc" then q + (27315 # 100) else q)), s)) ->
  Forall (fun c => exists code q, assoc c map = Some code /\
                     attrs s !! ("_" ++ c)%string = Some (PNum q)) l ->
  exists args, mapM f l s = (inr args, s) /\ Forall2 (oracle_arg_of map s) l args.
Proof.
  intros Hf Hl. induction Hl as [|c l (code & q & Ha & Hx) Hl IH].
  - exists []. split; [reflexivity | constructor].
  - destruct IH as (args & E & F).
    eexists. split.
    + simpl. unfold bind at 1. rewrite (Hf c code q Ha Hx).
      unfold bind at 1. rewrite E. reflexivity.
    + constructor; [|exact F]. exists code, q. auto.
Qed.

(** [StateHA.get_prop(prop)] on an object with at least three pins, each a
    name of [_prop_map] holding a number: it calls [HAPropsSI] exactly once,
    with one (code, value) pair per pin in the order of the constraints set
    ([tempc] converted to Kelvin), returns its answer or exception unchanged
    and modifies nothing. *)
Theorem StateHA_get_prop_oracle_call HAPropsSI prop s :
  (3 <= length (cset s))%nat ->
  Forall (fun c => exists code q, assoc c StateHA_prop_map = Some code /\
                     attrs s !! ("_" ++ c)%string = Some (PNum q)) (cset s) ->
  exists args, StateHA_get_prop HAPropsSI prop s = (HAPropsSI prop args, s) /\
    Forall2 (oracle_arg_of StateHA_prop_map s) (cset s) args.
Proof.
  intros Hl Hpins.
  destruct (mapM_constraint_arg StateHA_constraint_arg StateHA_prop_map s (cset s)
              (fun c code q => StateHA_constraint_arg_value c code q s) Hpins)
    as (args & E & F).
  exists args. split; [|exact F].
  unfold StateHA_get_prop. rewrite bind_get_obj. cbv beta.
  replace (Nat.ltb (length (cset s)) 3) with false by (symmetry; apply Nat.ltb_ge; exact Hl).
  unfold bind. rewrite E. reflexivity.
Qed.

(** [StateProps.get_prop(prop)] on an object with at least two pins, each a
    name of [_prop_map] holding a number, and a non-empty fluid name: it
    calls [PropsSI] exactly once, with one (code, value) pair per pin in the
    order of the constraints set ([tempc] converted to Kelvin) followed by
    the fluid, returns its answer or exception unchanged and modifies
    nothing. *)
Theorem StateProps_get_prop_oracle_call PropsSI prop s f :
  (2 <= length (cset s))%nat ->
  attrs s !! "_fluid" = Some (PStr f) -> f <> ""%string ->
  Forall (fun c => exists code q, assoc c StateProps_prop_map = Some code /\
                     attrs s !! ("_" ++ c)%string = Some (PNum q)) (cset s) ->
  exists args, StateProps_get_prop PropsSI prop s = (PropsSI prop args (PStr f), s) /\
    Forall2 (oracle_arg_of StateProps_prop_map s) (cset s) args.
Proof.
  intros Hl Hf Hne Hpins.
  destruct (mapM_constraint_arg StateProps_constraint_arg StateProps_prop_map s (cset s)
              (fun c code q => StateProps_constraint_arg_value c code q s) Hpins)
    as (args & E & F).
  exists args. split; [|exact F].
  unfold StateProps_get_prop. rewrite bind_get_obj. cbv beta.
  replace (Nat.ltb (length (cset s)) 2) with false by (symmetry; apply Nat.ltb_ge; exact Hl).
  unfold bind at 1, getattr at 1. cbv beta. rewrite Hf. cbv beta iota.
  change (truthy (PStr f)) with (negb (String.eqb f "")).
  rewrite (proj2 (String.eqb_neq f "") Hne).
  change (negb (negb false)) with false. cbv iota.
  unfold bind. rewrite E. reflexivity.
Qed.

(** An empty fluid name: [state.fluid = ''] is accepted and, since the
    setters only test [self._fluid is None], property writes are no longer
    refused for a missing fluid, but [get_prop] raises ValueError whatever
    the pins, so with two or more pins every computed read fails. *)
Theorem StateProps_empty_fluid_name PropsSI prop s :
  let s' := mk_obj (<["_fluid" := PStr ""]> (attrs s)) (cset s) in
  StateProps_set_fluid (PStr "") s = (inr tt, s') /\
  fluid_is_none s' = false /\
  ((2 <= length (cset s))%nat ->
   StateProps_get_prop PropsSI prop s' =
     (inl (ValueError "Fluid type must be set before calculating properties"), s')).
Proof.
  intros s'. split; [reflexivity|]. split.
  - unfold fluid_is_none. simpl. now rewrite lookup_insert_eq.
  - intros Hl. unfold StateProps_get_prop. rewrite bind_get_obj. cbv beta.
    replace (Nat.ltb (length (cset s')) 2) with false
      by (symmetry; apply Nat.ltb_ge; exact Hl).
    unfold bind at 1, getattr at 1. cbv beta. simpl attrs. rewrite lookup_insert_eq.
    reflexivity.
Qed.

(** ** The Validity Checker [test_state_validity] *)

Lemma bind_inr {A B} (m : M A) (k : A -> M B) s a s' :
  m s = (inr a, s') -> bind m k s = k a s'.
Proof. intros E. unfold bind. now rewrite E. Qed.

Lemma bind_inl {A B} (m : M A) (k : A -> M B) s e s' :
  m s = (inl e, s') -> bind m k s = (inl e, s').
Proof. intros E. unfold bind. now rewrite E. Qed.

(** What [test_state_validity] makes of the oracle's answer: [True] on a
    value, ["Invalid state: ..."] on a ValueError, other exceptions as
    they are. *)
Definition validity_result (r : exc + Q) : exc + bool :=
  match r with
  | inr _ => inr true
  | inl (ValueError m) => inl (ValueError ("Invalid state: " ++ m)%string)
  | inl e => inl e
  end.

(** [StateHA.test_state_validity(current_props, new_prop, new_value)]
    never modifies the object; with no current property it raises
    IndexError at [list(current_props)[0]], which its [except ValueError]
    does not catch; otherwise, when every current property is a name of
    [_prop_map] holding a number and [new_prop] is one too, it makes one
    [HAPropsSI] call asking for the code of the first current property,
    with the pairs of the current properties followed by the new pair
    ([tempc] converted to Kelvin), and answers [True], or re-raises a
    ValueError as ["Invalid state: ..."]. *)
Theorem StateHA_test_state_validity_behaviour HAPropsSI :
  (forall cur np v, readonly (StateHA_test_state_validity HAPropsSI cur np v)) /\
  (forall np code v s, assoc np StateHA_prop_map = Some code ->
     StateHA_test_state_validity HAPropsSI [] np v s = (inl IndexError, s)) /\
  (forall c cur np code v s,
     Forall (fun c => exists code q, assoc c StateHA_prop_map = Some code /\
                        attrs s !! ("_" ++ c)%string = Some (PNum q)) (c :: cur) ->
     assoc np StateHA_prop_map = Some code ->
     exists args input, assoc c StateHA_prop_map = Some input /\
       Forall2 (oracle_arg_of StateHA_prop_map s) (c :: cur) args /\
       StateHA_test_state_validity HAPropsSI (c :: cur) np v s =
         (validity_result (HAPropsSI input
            (args ++ [(code, PNum (if String.eqb np "tempc" then v + (27315 # 100) else v))])), s)).
Proof.
  split; [|split].
  - intros cur np v. unfold StateHA_test_state_validity. cbv zeta. readonly_tac.
  - intros np code v s Hnp. unfold StateHA_test_state_validity, try_except_value_error. cbv zeta.
    rewrite (bind_inr (mapM StateHA_constraint_arg []) _ s [] s) by reflexivity.
    rewrite (bind_inr (dict_get StateHA_prop_map np) _ s code s)
      by (unfold dict_get; now rewrite Hnp).
    reflexivity.
  - intros c cur np code v s Hpins Hnp.
    destruct (mapM_constraint_arg StateHA_constraint_arg StateHA_prop_map s (c :: cur)
                (fun c code q => StateHA_constraint_arg_value c code q s) Hpins)
      as (args & E & F).
    inversion Hpins as [|? ? (input & q & Hc & _) _]; subst.
    exists args, input. split; [exact Hc|]. split; [exact F|].
    unfold StateHA_test_state_validity, try_except_value_error. cbv zeta.
    rewrite (bind_inr (mapM StateHA_constraint_arg (c :: cur)) _ s args s E).
    rewrite (bind_inr (dict_get StateHA_prop_map np) _ s code s)
      by (unfold dict_get; now rewrite Hnp).
    rewrite (bind_inr (dict_get StateHA_prop_map c) _ s input s)
      by (unfold dict_get; now rewrite Hc).
    unfold bind, lift, ret.
    destruct (HAPropsSI input _) as [[]|]; reflexivity.
Qed.

(** [StateProps.test_state_validity(current_props, new_prop, new_value)]
    never modifies the object; it raises ValueError when [_fluid] is [None]
    or the empty string; with a non-empty fluid and a non-empty list of
    current properties each having a [_prop_map] code and a numeric stored
    value (so [vol] is not among them: that raises KeyError('vol') first,
    and an empty list raises IndexError), [new_prop = 'vol'] raises
    KeyError('vol'), which its
    [except ValueError] does not catch, and any other [new_prop] of
    [_prop_map] leads to one [PropsSI] call with the current pairs, the new
    pair and the fluid, answered by [True] or ["Invalid state: ..."]. *)
Theorem StateProps_test_state_validity_behaviour PropsSI :
  (forall cur np v, readonly (StateProps_test_state_validity PropsSI cur np v)) /\
  (forall cur np v s,
     attrs s !! "_fluid" = Some PNone \/ attrs s !! "_fluid" = Some (PStr "") ->
     StateProps_test_state_validity PropsSI cur np v s =
       (inl (ValueError "Fluid type must be set before validating state"), s)) /\
  (forall c cur np code v s f,
     attrs s !! "_fluid" = Some (PStr f) -> f <> ""%string ->
     Forall (fun c => exists code q, assoc c StateProps_prop_map = Some code /\
                        attrs s !! ("_" ++ c)%string = Some (PNum q)) (c :: cur) ->
     StateProps_test_state_validity PropsSI (c :: cur) "vol" v s = (inl (KeyError "vol"), s) /\
     (assoc np StateProps_prop_map = Some code ->
      exists args input, assoc c StateProps_prop_map = Some input /\
        Forall2 (oracle_arg_of StateProps_prop_map s) (c :: cur) args /\
        StateProps_test_state_validity PropsSI (c :: cur) np v s =
          (validity_result (PropsSI input
             (args ++ [(code, PNum (if String.eqb np "tempc" then v + (27315 # 100) else v))])
             (PStr f)), s))).
Proof.
  split; [|split].
  - intros cur np v. unfold StateProps_test_state_validity. cbv zeta. readonly_tac.
  - intros cur np v s Hf. unfold StateProps_test_state_validity.
    destruct Hf as [Hf | Hf].
    + rewrite (bind_inr _ _ s PNone s) by (apply getattr_some; exact Hf). reflexivity.
    + rewrite (bind_inr _ _ s (PStr "") s) by (apply getattr_some; exact Hf). reflexivity.
  - intros c cur np code v s f Hf Hne Hpins.
    destruct (mapM_constraint_arg StateProps_constraint_arg StateProps_prop_map s (c :: cur)
                (fun c code q => StateProps_constraint_arg_value c code q s) Hpins)
      as (args & E & F).
    assert (Hfl : forall np v, StateProps_test_state_validity PropsSI (c :: cur) np v s =
      try_except_value_error
        (let* test_props := mapM StateProps_constraint_arg (c :: cur) in
         let* coolprop_new_prop := dict_get StateProps_prop_map np in
         let new_value_converted :=
           if String.eqb np "tempc" then v + (27315 # 100) else v in
         let* input_prop := dict_get StateProps_prop_map c in
         lift (PropsSI input_prop
                 (test_props ++ [(coolprop_new_prop, PNum new_value_converted)]) (PStr f)) ;;
         ret true)
        (fun msg => raise (ValueError ("Invalid state: " ++ msg)%string)) s).
    { intros np' v'. unfold StateProps_test_state_validity.
      rewrite (bind_inr _ _ s (PStr f) s) by (apply getattr_some; exact Hf).
      change (truthy (PStr f)) with (negb (String.eqb f "")).
      rewrite (proj2 (String.eqb_neq f "") Hne). reflexivity. }
    split.
    + rewrite Hfl. unfold try_except_value_error. cbv zeta.
      rewrite (bind_inr _ _ s args s E). reflexivity.
    + intros Hnp. inversion Hpins as [|? ? (input & q & Hc & _) _]; subst.
      exists args, input. split; [exact Hc|]. split; [exact F|].
      rewrite Hfl. unfold try_except_value_error. cbv zeta.
      rewrite (bind_inr _ _ s args s E).
      rewrite (bind_inr (dict_get StateProps_prop_map np) _ s code s)
        by (unfold dict_get; now rewrite Hnp).
      rewrite (bind_inr (dict_get StateProps_prop_map c) _ s input s)
        by (unfold dict_get; now rewrite Hc).
      unfold bind, lift, ret.
      destruct (PropsSI input _ _) as [[]|]; reflexivity.
Qed.

(** ** Bulk [set(props)] *)

Lemma StateHA_set_odd_fails props s :
  Nat.odd (length props) = true -> exists e, fst (StateHA_set props s) = inl e.
Proof.
  remember (length props) as n eqn:Hn. revert props s Hn.
  induction n as [n IH] using lt_wf_ind. intros props s Hn Hodd.
  destruct props as [|name [|value rest]]; simpl in Hn; subst n.
  - discriminate.
  - exists IndexError. reflexivity.
  - assert (Hr : forall s', exists e, fst (StateHA_set rest s') = inl e).
    { intros s'. apply (IH (length rest)); [lia | reflexivity | exact Hodd]. }
    simpl. destruct name as [|q|code]; try apply Hr.
    destruct (StateHA_set_map code) as [p|]; [|apply Hr].
    unfold bind. destruct (StateHA_write p value s) as [[e|[]] s1]; [now exists e | apply Hr].
Qed.

Lemma StateProps_set_pairs_odd_fails props s :
  Nat.odd (length props) = true -> exists e, fst (StateProps_set_pairs props s) = inl e.
Proof.
  remember (length props) as n eqn:Hn. revert props s Hn.
  induction n as [n IH] using lt_wf_ind. intros props s Hn Hodd.
  destruct props as [|name [|value rest]]; simpl in Hn; subst n.
  - discriminate.
  - exists IndexError. reflexivity.
  - assert (Hr : forall s', exists e, fst (StateProps_set_pairs rest s') = inl e).
    { intros s'. apply (IH (length rest)); [lia | reflexivity | exact Hodd]. }
    simpl. destruct name as [|q|code]; try apply Hr.
    destruct (StateProps_set_map code) as [p|]; [|apply Hr].
    unfold bind. destruct (try_except_value_error _ _ s) as [[e|[]] s1]; [now exists e | apply Hr].
Qed.

Lemma length_removelast_pred {A} (l : list A) : length (List.removelast l) = pred (length l).
Proof.
  destruct l as [|x l]; [reflexivity|].
  rewrite (app_removelast_last x (l := x :: l)) at 2 by discriminate.
  rewrite length_app. simpl. lia.
Qed.

(** A code without a value: [StateHA.set(props)] with an odd number of
    elements, and [StateProps.set(props)] with an even number of elements
    (the last one being the fluid), never complete; the loop ends in
    IndexError at [props[i + 1]] unless an earlier step raised first. *)
Theorem set_with_dangling_code_fails :
  (forall props s, Nat.odd (length props) = true ->
     exists e, fst (StateHA_set props s) = inl e) /\
  (forall props s, Nat.even (length props) = true ->
     exists e, fst (StateProps_set props s) = inl e).
Proof.
  split; [apply StateHA_set_odd_fails|].
  intros props s Hev. unfold StateProps_set.
  destruct (Nat.leb 5 (length props)) eqn:Hl; [|eexists; reflexivity].
  apply Nat.leb_le in Hl.
  unfold bind. destruct (StateProps_set_fluid _ s) as [[e|[]] s1]; [now exists e|].
  apply StateProps_set_pairs_odd_fails. rewrite length_removelast_pred.
  destruct (length props) as [|k]; [lia|]. simpl. rewrite Nat.even_succ in Hev.
  now rewrite <- Nat.negb_even, <- Nat.negb_odd, Hev.
Qed.

Lemma StateProps_set_pairs_no_value_error props s e s' :
  StateProps_set_pairs props s = (inl e, s') -> forall m, e <> ValueError m.
Proof.
  remember (length props) as n eqn:Hn. revert props s Hn.
  induction n as [n IH] using lt_wf_ind. intros props s Hn H m.
  destruct props as [|name [|value rest]]; simpl in Hn; subst n.
  - discriminate.
  - simpl in H. injection H as <- _. discriminate.
  - assert (Hr : forall s1, StateProps_set_pairs rest s1 = (inl e, s') -> e <> ValueError m)
      by (intros s1 H1; exact (IH (length rest) ltac:(lia) rest s1 eq_refl H1 m)).
    simpl in H. destruct name as [|q|code]; try exact (Hr _ H).
    destruct (StateProps_set_map code) as [p|]; [|exact (Hr _ H)].
    unfold bind in H. unfold try_except_value_error in H.
    destruct (StateProps_write p value s) as [[e1|[]] s1] eqn:E.
    + destruct e1; try (injection H as <- _; discriminate).
      exact (Hr _ H).
    + exact (Hr _ H).
Qed.

(** [StateProps.set(props)] raises ValueError only when [props] has fewer
    than five elements, and then changes nothing; otherwise the ValueErrors
    of the setters are turned into warnings and the loop goes on, so what
    can still escape is the fluid setter's TypeError, a setter's TypeError
    for a non-number, or IndexError. *)
Theorem StateProps_set_value_errors props s :
  ((length props < 5)%nat ->
   StateProps_set props s =
     (inl (ValueError "Props must include a fluid name as the last element"), s)) /\
  ((5 <= length props)%nat -> forall e s' m,
   StateProps_set props s = (inl e, s') -> e <> ValueError m).
Proof.
  split.
  - intros Hl. unfold StateProps_set.
    replace (Nat.leb 5 (length props)) with false by (symmetry; apply Nat.leb_gt; lia).
    reflexivity.
  - intros Hl e s' m H. unfold StateProps_set in H.
    replace (Nat.leb 5 (length props)) with true in H by (symmetry; apply Nat.leb_le; lia).
    unfold bind, StateProps_set_fluid in H.
    destruct (List.last props PNone); try (injection H as <- _; discriminate).
    exact (StateProps_set_pairs_no_value_error _ _ _ _ H m).
Qed.

(** ** The [fluid] property *)


(** ** [StateProps.constraints] *)

Lemma mem_Permutation x l1 l2 : l1 ≡ₚ l2 -> mem x l1 = mem x l2.
Proof.
  intros Hp. destruct (mem x l2) eqn:E2.
  - apply in_mem_true. rewrite Hp. now apply mem_true_in.
  - destruct (mem x l1) eqn:E1; [|reflexivity].
    apply mem_true_in in E1. rewrite Hp in E1.
    exfalso. exact (mem_false_not_in x l2 E2 E1).
Qed.

Lemma try_except_readonly {A} (m : M A) h :
  readonly m -> (forall e, readonly (h e)) -> readonly (try_except m h).
Proof.
  intros Hm Hh s. unfold try_except. specialize (Hm s).
  destruct (m s) as [[e|a] s1]; simpl in *; subst; [apply Hh | reflexivity].
Qed.

Lemma py_gt_readonly v c : readonly (py_gt v c).
Proof. destruct v; intros s0; reflexivity. Qed.

#[local] Hint Resolve try_except_readonly py_gt_readonly StateProps_read_readonly : pymonad.

Lemma StateProps_phase_status_readonly o props : readonly (StateProps_phase_status o props).
Proof.
  unfold StateProps_phase_status. destruct (mem "quality" props).
  - readonly_tac.
  - apply try_except_readonly; [|intros; apply ret_readonly].
    readonly_tac.
Qed.

(** The [edition] entry. *)
Definition edition_value (ver : exc + string) : pyval :=
  match ver with inr v => PStr v | inl _ => PStr "Unknown" end.

Lemma StateProps_edition_value ver s :
  StateProps_edition ver s = (inr (edition_value ver), s).
Proof. destruct ver; reflexivity. Qed.

(** [StateProps.constraints] never raises and never modifies the object:
    ['properties'] is the sorted constraints set, ['fluid'] is [_fluid],
    ['is_complete'] holds exactly when two names are pinned and [_fluid]
    is not [None], and on an incomplete state ['status'] and ['edition']
    are [None]; it is the same for any oracle and CoolProp version then. *)
Theorem StateProps_constraints_shape PropsSI ver s :
  exists d, StateProps_constraints PropsSI ver s = (inr d, s) /\
    cd_properties d = py_sorted (cset s) /\
    cd_fluid d = match attrs s !! "_fluid" with Some f => f | None => PNone end /\
    cd_is_complete d = Nat.eqb (length (cset s)) 2 && negb (fluid_is_none s) /\
    (cd_is_complete d = false -> cd_status d = PNone /\ cd_edition d = PNone).
Proof.
  pose proof (proj2 (py_sorted_spec (cset s))) as Hp.
  assert (Hl : length (py_sorted (cset s)) = length (cset s))
    by (apply Permutation_length; exact Hp).
  unfold StateProps_constraints. rewrite bind_get_obj. cbv beta zeta. rewrite Hl.
  destruct (Nat.eqb (length (cset s)) 2 && negb (fluid_is_none s)) eqn:Hc.
  - pose proof (StateProps_phase_status_readonly PropsSI (py_sorted (cset s)) s) as Hro.
    destruct (StateProps_phase_status PropsSI (py_sorted (cset s)) s) as [[e|st] s1] eqn:E;
      simpl in Hro; subst s1.
    + rewrite (bind_inr _ _ s (PStr "Unknown", PStr "Unknown") s).
      * eexists. split; [reflexivity|]. repeat split; discriminate.
      * unfold try_except. rewrite (bind_inl _ _ s e s E). reflexivity.
    + rewrite (bind_inr _ _ s (st, edition_value ver) s).
      * eexists. split; [reflexivity|]. repeat split; discriminate.
      * unfold try_except. rewrite (bind_inr _ _ s st s E).
        rewrite (bind_inr _ _ s (edition_value ver) s) by apply StateProps_edition_value.
        reflexivity.
  - eexists. split; [reflexivity|]. repeat split.
Qed.

(** The ['status'] entry of a complete StateProps (two pins, [_fluid] not
    [None]) with [quality] pinned to a number [q]: ['saturated_liquid'] when
    [q == 0], ['saturated_vapor'] when [q == 1], ['two_phase'] otherwise,
    without calling the oracle; ['edition'] is the CoolProp version or
    ['Unknown']. *)
Theorem StateProps_constraints_status_pinned_quality PropsSI ver s q :
  length (cset s) = 2%nat -> fluid_is_none s = false ->
  mem "quality" (cset s) = true -> attrs s !! "_quality" = Some (PNum q) ->
  exists d, StateProps_constraints PropsSI ver s = (inr d, s) /\
    cd_is_complete d = true /\ cd_edition d = edition_value ver /\
    cd_status d = (if Qeq_bool q 0 then PStr "saturated_liquid"
                   else if Qeq_bool q 1 then PStr "saturated_vapor"
                   else PStr "two_phase").
Proof.
  intros Hl Hf Hm Hq.
  pose proof (proj2 (py_sorted_spec (cset s))) as Hp.
  assert (Hl' : length (py_sorted (cset s)) = length (cset s))
    by (apply Permutation_length; exact Hp).
  unfold StateProps_constraints. rewrite bind_get_obj. cbv beta zeta. rewrite Hl', Hl, Hf.
  change (Nat.eqb 2 2 && negb false) with true. cbv iota.
  unfold try_except.
  assert (Hs : StateProps_phase_status PropsSI (py_sorted (cset s)) s =
               (inr (if Qeq_bool q 0 then PStr "saturated_liquid"
                     else if Qeq_bool q 1 then PStr "saturated_vapor"
                     else PStr "two_phase"), s)).
  { unfold StateProps_phase_status. rewrite (mem_Permutation _ _ _ Hp), Hm.
    rewrite (bind_inr _ _ s (PNum q) s) by (apply getattr_some; exact Hq).
    change (py_eq_num (PNum q) 0) with (Qeq_bool q 0).
    change (py_eq_num (PNum q) 1) with (Qeq_bool q 1).
    destruct (Qeq_bool q 0); [reflexivity|].
    destruct (Qeq_bool q 1); reflexivity. }
  rewrite (bind_inr _ _ s ((if Qeq_bool q 0 then PStr "saturated_liquid"
                     else if Qeq_bool q 1 then PStr "saturated_vapor"
                     else PStr "two_phase"), edition_value ver) s).
  - eexists. split; [reflexivity|]. auto.
  - rewrite (bind_inr _ _ s _ s Hs).
    rewrite (bind_inr _ _ s (edition_value ver) s) by apply StateProps_edition_value.
    reflexivity.
Qed.

(** The ['status'] entry of a complete StateProps without a [quality] pin
    follows the [quality] getter: when that getter raises, ['single_phase'];
    when it returns anything but [-1.0], ['two_phase'] (also when it returns
    [None] because the oracle raised ValueError for ['Q']); when it returns
    [-1.0] and [press] is not pinned, ['single_phase']; and when it returns
    [-1.0], [press] is pinned at or below the oracle's ['pcrit'], and
    neither [tempk] nor [tempc] is pinned, [None]. *)
Theorem StateProps_constraints_status_from_quality PropsSI ver s :
  length (cset s) = 2%nat -> fluid_is_none s = false -> mem "quality" (cset s) = false ->
  (forall e, fst (StateProps_read PropsSI PR_quality s) = inl e ->
     exists d, StateProps_constraints PropsSI ver s = (inr d, s) /\
       cd_status d = PStr "single_phase") /\
  (forall v, fst (StateProps_read PropsSI PR_quality s) = inr v -> py_eq_num v (-1) = false ->
     exists d, StateProps_constraints PropsSI ver s = (inr d, s) /\
       cd_status d = PStr "two_phase") /\
  (forall v, fst (StateProps_read PropsSI PR_quality s) = inr v -> py_eq_num v (-1) = true ->
     mem "press" (cset s) = false ->
     exists d, StateProps_constraints PropsSI ver s = (inr d, s) /\
       cd_status d = PStr "single_phase") /\
  (forall v p pc, fst (StateProps_read PropsSI PR_quality s) = inr v -> py_eq_num v (-1) = true ->
     mem "press" (cset s) = true -> attrs s !! "_press" = Some (PNum p) ->
     StateProps_get_prop PropsSI "pcrit" s = (inr pc, s) -> qlt pc p = false ->
     mem "tempk" (cset s) = false -> mem "tempc" (cset s) = false ->
     exists d, StateProps_constraints PropsSI ver s = (inr d, s) /\
       cd_is_complete d = true /\ cd_status d = PNone).
Proof.
  intros Hl Hf Hm.
  pose proof (proj2 (py_sorted_spec (cset s))) as Hp.
  assert (Hl' : length (py_sorted (cset s)) = length (cset s))
    by (apply Permutation_length; exact Hp).
  assert (Hmem : forall x, mem x (py_sorted (cset s)) = mem x (cset s))
    by (intros x; apply mem_Permutation, Hp).
  (* the constraints dict from the phase status *)
  assert (Hc : forall st, StateProps_phase_status PropsSI (py_sorted (cset s)) s = (inr st, s) ->
            exists d, StateProps_constraints PropsSI ver s = (inr d, s) /\
              cd_is_complete d = true /\ cd_status d = st).
  { intros st Hs. unfold StateProps_constraints. rewrite bind_get_obj. cbv beta zeta.
    rewrite Hl', Hl, Hf. change (Nat.eqb 2 2 && negb false) with true. cbv iota.
    rewrite (bind_inr _ _ s (st, edition_value ver) s).
    - eexists. split; [reflexivity|]. auto.
    - unfold try_except. rewrite (bind_inr _ _ s _ s Hs).
      rewrite (bind_inr _ _ s (edition_value ver) s) by apply StateProps_edition_value.
      reflexivity. }
  pose proof (StateProps_read_readonly PropsSI PR_quality s) as Hro.
  assert (Hps : forall st,
    try_except
      (let* quality := StateProps_read PropsSI PR_quality in
       if py_eq_num quality (-1) then
         if mem "press" (py_sorted (cset s)) then
           let* press_val := getattr "_press" in
           let* pcrit := StateProps_get_prop PropsSI "pcrit" in
           let* above := py_gt press_val pcrit in
           if above then ret (PStr "supercritical")
           else if mem "tempk" (py_sorted (cset s)) || mem "tempc" (py_sorted (cset s)) then
             let* temp_val := getattr "_tempk" in
             let* tcrit := StateProps_get_prop PropsSI "Tcrit" in
             let* above' := py_gt temp_val tcrit in
             if above' then ret (PStr "supercritical") else ret (PStr "liquid")
           else ret PNone
         else ret (PStr "single_phase")
       else ret (PStr "two_phase"))
      (fun _ => ret (PStr "single_phase")) s = (inr st, s) ->
    exists d, StateProps_constraints PropsSI ver s = (inr d, s) /\
      cd_is_complete d = true /\ cd_status d = st).
  { intros st H. apply Hc. unfold StateProps_phase_status. rewrite Hmem, Hm. exact H. }
  split; [|split; [|split]].
  - intros e He. destruct (Hps (PStr "single_phase")) as (d & E & _ & St); [|eauto].
    unfold try_except. rewrite (bind_inl _ _ s e s); [reflexivity|].
    destruct (StateProps_read PropsSI PR_quality s) as [r s1]. simpl in He, Hro. now subst.
  - intros v Hv Hq. destruct (Hps (PStr "two_phase")) as (d & E & _ & St); [|eauto].
    unfold try_except. rewrite (bind_inr _ _ s v s).
    + rewrite Hq. reflexivity.
    + destruct (StateProps_read PropsSI PR_quality s) as [r s1]. simpl in Hv, Hro. now subst.
  - intros v Hv Hq Hpr. destruct (Hps (PStr "single_phase")) as (d & E & _ & St); [|eauto].
    unfold try_except. rewrite (bind_inr _ _ s v s).
    + rewrite Hq, Hmem, Hpr. reflexivity.
    + destruct (StateProps_read PropsSI PR_quality s) as [r s1]. simpl in Hv, Hro. now subst.
  - intros v p pc Hv Hq Hpr Hpv Hpc Hgt Htk Htc. apply Hps.
    unfold try_except. rewrite (bind_inr _ _ s v s).
    + rewrite Hq, Hmem, Hpr. cbv iota.
      rewrite (bind_inr _ _ s (PNum p) s) by (apply getattr_some; exact Hpv).
      rewrite (bind_inr _ _ s pc s Hpc).
      rewrite (bind_inr _ _ s false s) by (simpl; now rewrite Hgt).
      rewrite !Hmem, Htk, Htc. reflexivity.
    + destruct (StateProps_read PropsSI PR_quality s) as [r s1]. simpl in Hv, Hro. now subst.
Qed.

(** ** [StateHA.density] against [StateHA.vol] *)

(** On a StateHA with three pins, neither [vol] nor [density] among them,
    the [density] getter is the reciprocal of the [vol] getter: both ask
    the oracle for ['V']; [1/vol] raises ZeroDivisionError when the volume
    is 0, and an exception of the oracle call comes out of both unchanged. *)
Theorem StateHA_density_reciprocal_of_vol HAPropsSI s :
  length (cset s) = 3%nat -> mem "vol" (cset s) = false -> mem "density" (cset s) = false ->
  (forall v, StateHA_read HAPropsSI HA_vol s = (inr (PNum v), s) ->
     StateHA_read HAPropsSI HA_density s =
       (if Qeq_bool v 0 then (inl ZeroDivisionError, s) else (inr (PNum (1 / v)), s))) /\
  (forall e, StateHA_read HAPropsSI HA_vol s = (inl e, s) ->
     StateHA_read HAPropsSI HA_density s = (inl e, s)).
Proof.
  intros Hl Hv Hd.
  assert (Ev : StateHA_read HAPropsSI HA_vol s =
               bind (StateHA_get_prop HAPropsSI "V") (fun q => ret (PNum q)) s).
  { simpl StateHA_read. unfold StateHA_getter. cbv zeta. rewrite bind_get_obj. cbv beta.
    change (ha_name HA_vol) with "vol"%string. rewrite Hv, Hl. reflexivity. }
  assert (Ed : StateHA_read HAPropsSI HA_density s =
               bind (StateHA_get_prop HAPropsSI "V") (fun vol => py_div 1 (PNum vol)) s).
  { simpl StateHA_read. rewrite bind_get_obj. cbv beta. rewrite Hd, Hl. reflexivity. }
  rewrite Ev, Ed. pose proof (StateHA_get_prop_readonly HAPropsSI "V" s) as Hro.
  unfold bind. destruct (StateHA_get_prop HAPropsSI "V" s) as [[e|w] s1];
    simpl in Hro; subst s1; split.
  - intros v H. discriminate H.
  - intros e' H. exact H.
  - intros v H. injection H as <-. unfold py_div. now destruct (Qeq_bool w 0).
  - intros e' H. discriminate H.
Qed.

(** * Instances of the further properties *)

(** Every name in [l] has an oracle code and a numeric stored value. *)
Definition pins_ok (map : list (string * string)) (s : obj) (l : list string) : Prop :=
  Forall (fun c => exists code q, assoc c map = Some code /\
                     attrs s !! ("_" ++ c)%string = Some (PNum q)) l.

Ltac pins_ok_tac :=
  unfold pins_ok; apply List.Forall_forall; intros ? Hc; vm_compute in Hc;
  repeat (destruct Hc as [<-|Hc]; [do 2 eexists; split; reflexivity|]); contradiction.

(** [StateHA(['P', 101325, 'T', 293.15])] after [tempc = 20]. *)
Definition ha_PT_tempc20 : obj := snd (StateHA_write HA_tempc (PNum 20) ha_PT).
(** [StateProps(fluid='Water')] after [tempc = 20]. *)
Definition water_tempc20 : obj := snd (StateProps_write PR_tempc (PNum 20) water).
(** [StateProps(['T', 293.15, 'P', 101325, 'Water'])] after [tempc = 20]. *)
Definition water_TP_tempc20 : obj := snd (StateProps_write PR_tempc (PNum 20) water_TP).
(** [StateProps(fluid='Water')] after [vol = 2]. *)
Definition water_vol2 : obj := snd (StateProps_write PR_vol (PNum 2) water).
(** [StateProps(['T', 373.15, 'Q', 1, 'Water'])] *)
Definition water_TQ : obj :=
  snd (StateProps_init (Some [PStr "T"; PNum (37315 # 100); PStr "Q"; PNum 1;
                              PStr "Water"]) None StateProps_empty).
(** [StateProps(['P', 101325, 'D', 998, 'Water'])] *)
Definition water_PD : obj :=
  snd (StateProps_init (Some [PStr "P"; PNum 101325; PStr "D"; PNum 998;
                              PStr "Water"]) None StateProps_empty).
(** An oracle for a subcritical single-phase state: quality [-1], critical
    pressure 22.064 MPa, 0 for everything else. *)
Definition PropsSI_liquid : string -> list (string * pyval) -> pyval -> exc + Q :=
  fun out _ _ =>
    if String.eqb out "Q" then inr (-1)
    else if String.eqb out "pcrit" then inr 22064000
    else inr 0.

Lemma write_then_read_returns_value_witness :
  (StateHA_write HA_tempc (PNum 20) ha_PT = (inr tt, ha_PT_tempc20) /\
   StateHA_read HAPropsSI_reject HA_tempc ha_PT_tempc20 = (inr (PNum 20), ha_PT_tempc20)) /\
  (PR_tempc <> PR_vol /\
   StateProps_write PR_tempc (PNum 20) water = (inr tt, water_tempc20) /\
   StateProps_read PropsSI_zero PR_tempc water_tempc20 = (inr (PNum 20), water_tempc20)).
Proof.
  assert (E1 : StateHA_write HA_tempc (PNum 20) ha_PT = (inr tt, ha_PT_tempc20))
    by (vm_compute; reflexivity).
  assert (E2 : StateProps_write PR_tempc (PNum 20) water = (inr tt, water_tempc20))
    by (vm_compute; reflexivity).
  assert (N : PR_tempc <> PR_vol) by discriminate.
  split.
  - split; [exact E1|]. exact (proj1 write_then_read_returns_value _ _ _ _ _ E1).
  - split; [exact N|]. split; [exact E2|].
    exact (proj2 write_then_read_returns_value _ _ _ _ _ N E2).
Defined.

Lemma tempc_write_updates_tempk_witness :
  (StateHA_write HA_tempc (PNum 20) ha_PT = (inr tt, ha_PT_tempc20) /\
   mem "tempk" (cset ha_PT) = true /\
   StateHA_read HAPropsSI_reject HA_tempk ha_PT_tempc20 =
     (inr (PNum (20 + (27315 # 100))), ha_PT_tempc20)) /\
  (StateProps_write PR_tempc (PNum 20) water_TP = (inr tt, water_TP_tempc20) /\
   mem "tempk" (cset water_TP) = true /\
   StateProps_read PropsSI_zero PR_tempk water_TP_tempc20 =
     (inr (PNum (20 + (27315 # 100))), water_TP_tempc20)).
Proof.
  assert (E1 : StateHA_write HA_tempc (PNum 20) ha_PT = (inr tt, ha_PT_tempc20))
    by (vm_compute; reflexivity).
  assert (M1 : mem "tempk" (cset ha_PT) = true) by (vm_compute; reflexivity).
  assert (E2 : StateProps_write PR_tempc (PNum 20) water_TP = (inr tt, water_TP_tempc20))
    by (vm_compute; reflexivity).
  assert (M2 : mem "tempk" (cset water_TP) = true) by (vm_compute; reflexivity).
  split.
  - split; [exact E1|]. split; [exact M1|].
    exact (proj2 (proj2 (proj1 tempc_write_updates_tempk HAPropsSI_reject _ _ _ E1)) M1).
  - split; [exact E2|]. split; [exact M2|].
    exact (proj2 (proj2 (proj2 tempc_write_updates_tempk PropsSI_zero _ _ _ E2)) M2).
Defined.

Lemma StateProps_vol_write_updates_dens_witness :
  StateProps_write PR_vol (PNum 2) water = (inr tt, water_vol2) /\
  attrs water_vol2 !! "_dens" = Some (PNum (1 / 2)) /\ mem "vol" (cset water_vol2) = true.
Proof.
  assert (E : StateProps_write PR_vol (PNum 2) water = (inr tt, water_vol2))
    by (vm_compute; reflexivity).
  destruct (StateProps_vol_write_updates_dens PropsSI_zero 2 water water_vol2 E)
    as (D & V & _).
  split; [exact E|]. split; [exact D | exact V].
Defined.

Lemma StateHA_read_without_three_pins_witness :
  length (cset ha_PT) <> 3%nat /\
  StateHA_read HAPropsSI_reject HA_tempc ha_PT =
    (if mem "tempc" (cset ha_PT) then getattr "_tempc" ha_PT
     else (let* k := getattr "_tempk" in py_sub k (27315 # 100)) ha_PT).
Proof.
  assert (L : length (cset ha_PT) <> 3%nat) by (vm_compute; discriminate).
  split; [exact L|]. exact (proj2 (StateHA_read_without_three_pins HAPropsSI_reject ha_PT L)).
Defined.

Lemma StateProps_read_without_two_pins_witness :
  length (cset water_tempc20) <> 2%nat /\
  StateProps_read PropsSI_zero PR_quality water_tempc20 =
    (if mem "quality" (cset water_tempc20) then getattr "_quality" water_tempc20
     else (inr PNone, water_tempc20)).
Proof.
  assert (L : length (cset water_tempc20) <> 2%nat) by (vm_compute; discriminate).
  split; [exact L|].
  exact (proj2 (proj2 (StateProps_read_without_two_pins water_tempc20 L))
           PropsSI_zero PR_quality (or_introl eq_refl)).
Defined.

Lemma StateHA_get_prop_oracle_call_witness :
  (3 <= length (cset ha_PTR))%nat /\ pins_ok StateHA_prop_map ha_PTR (cset ha_PTR) /\
  exists args, StateHA_get_prop HAPropsSI_reject "W" ha_PTR = (HAPropsSI_reject "W" args, ha_PTR) /\
    Forall2 (oracle_arg_of StateHA_prop_map ha_PTR) (cset ha_PTR) args.
Proof.
  assert (L : (3 <= length (cset ha_PTR))%nat) by (vm_compute; lia).
  assert (P : pins_ok StateHA_prop_map ha_PTR (cset ha_PTR)) by pins_ok_tac.
  split; [exact L|]. split; [exact P|].
  exact (StateHA_get_prop_oracle_call HAPropsSI_reject "W" ha_PTR L P).
Defined.

Lemma StateProps_get_prop_oracle_call_witness :
  (2 <= length (cset water_TP))%nat /\ attrs water_TP !! "_fluid" = Some (PStr "Water") /\
  pins_ok StateProps_prop_map water_TP (cset water_TP) /\
  exists args, StateProps_get_prop PropsSI_zero "H" water_TP =
                 (PropsSI_zero "H" args (PStr "Water"), water_TP) /\
    Forall2 (oracle_arg_of StateProps_prop_map water_TP) (cset water_TP) args.
Proof.
  assert (L : (2 <= length (cset water_TP))%nat) by (vm_compute; lia).
  assert (F : attrs water_TP !! "_fluid" = Some (PStr "Water")) by (vm_compute; reflexivity).
  assert (N : "Water"%string <> ""%string) by discriminate.
  assert (P : pins_ok StateProps_prop_map water_TP (cset water_TP)) by pins_ok_tac.
  split; [exact L|]. split; [exact F|]. split; [exact P|].
  exact (StateProps_get_prop_oracle_call PropsSI_zero "H" water_TP "Water" L F N P).
Defined.

Lemma StateProps_empty_fluid_name_witness :
  (2 <= length (cset water_TP))%nat /\
  StateProps_get_prop PropsSI_zero "H"
    (mk_obj (<["_fluid" := PStr ""]> (attrs water_TP)) (cset water_TP)) =
    (inl (ValueError "Fluid type must be set before calculating properties"),
     mk_obj (<["_fluid" := PStr ""]> (attrs water_TP)) (cset water_TP)).
Proof.
  assert (L : (2 <= length (cset water_TP))%nat) by (vm_compute; lia).
  split; [exact L|].
  exact (proj2 (proj2 (StateProps_empty_fluid_name PropsSI_zero "H" water_TP)) L).
Defined.

Lemma StateHA_test_state_validity_behaviour_witness :
  pins_ok StateHA_prop_map ha_PT ["press"; "tempk"] /\
  assoc "relhum" StateHA_prop_map = Some "R"%string /\
  exists args input, assoc "press" StateHA_prop_map = Some input /\
    Forall2 (oracle_arg_of StateHA_prop_map ha_PT) ["press"; "tempk"] args /\
    StateHA_test_state_validity HAPropsSI_reject ["press"; "tempk"] "relhum" (1 # 2) ha_PT =
      (validity_result (HAPropsSI_reject input (args ++ [("R"%string, PNum (1 # 2))])), ha_PT).
Proof.
  assert (P : pins_ok StateHA_prop_map ha_PT ["press"; "tempk"]) by pins_ok_tac.
  assert (A : assoc "relhum" StateHA_prop_map = Some "R"%string) by reflexivity.
  split; [exact P|]. split; [exact A|].
  exact (proj2 (proj2 (StateHA_test_state_validity_behaviour HAPropsSI_reject))
           "press" ["tempk"] "relhum" "R" (1 # 2) ha_PT P A).
Defined.

Lemma StateProps_test_state_validity_behaviour_witness :
  (attrs StateProps_empty !! "_fluid" = Some PNone /\
   StateProps_test_state_validity PropsSI_zero ["tempk"] "press" 101325 StateProps_empty =
     (inl (ValueError "Fluid type must be set before validating state"), StateProps_empty)) /\
  (attrs water_TP !! "_fluid" = Some (PStr "Water") /\
   pins_ok StateProps_prop_map water_TP ["tempk"; "press"] /\
   StateProps_test_state_validity PropsSI_zero ["tempk"; "press"] "vol" 1 water_TP =
     (inl (KeyError "vol"), water_TP)).
Proof.
  assert (F0 : attrs StateProps_empty !! "_fluid" = Some PNone) by (vm_compute; reflexivity).
  assert (F : attrs water_TP !! "_fluid" = Some (PStr "Water")) by (vm_compute; reflexivity).
  assert (N : "Water"%string <> ""%string) by discriminate.
  assert (P : pins_ok StateProps_prop_map water_TP ["tempk"; "press"]) by pins_ok_tac.
  split.
  - split; [exact F0|].
    exact (proj1 (proj2 (StateProps_test_state_validity_behaviour PropsSI_zero))
             ["tempk"] "press" 101325 StateProps_empty (or_introl F0)).
  - split; [exact F|]. split; [exact P|].
    exact (proj1 (proj2 (proj2 (StateProps_test_state_validity_behaviour PropsSI_zero))
             "tempk" ["press"] "vol" "T" 1 water_TP "Water" F N P)).
Defined.

Lemma set_with_dangling_code_fails_witness :
  (Nat.odd (length [PStr "P"; PNum 101325; PStr "T"]) = true /\
   exists e, fst (StateHA_set [PStr "P"; PNum 101325; PStr "T"] StateHA_init) = inl e) /\
  (Nat.even (length [PStr "T"; PNum 300; PStr "P"; PNum 101325]) = true /\
   exists e, fst (StateProps_set [PStr "T"; PNum 300; PStr "P"; PNum 101325] water) = inl e).
Proof.
  assert (O : Nat.odd (length [PStr "P"; PNum 101325; PStr "T"]) = true) by reflexivity.
  assert (E : Nat.even (length [PStr "T"; PNum 300; PStr "P"; PNum 101325]) = true)
    by reflexivity.
  split.
  - split; [exact O|]. exact (proj1 set_with_dangling_code_fails _ StateHA_init O).
  - split; [exact E|]. exact (proj2 set_with_dangling_code_fails _ water E).
Defined.

Lemma StateProps_set_value_errors_witness :
  (length [PStr "T"; PNum 300; PStr "Water"] < 5)%nat /\
  StateProps_set [PStr "T"; PNum 300; PStr "Water"] water =
    (inl (ValueError "Props must include a fluid name as the last element"), water).
Proof.
  assert (L : (length [PStr "T"; PNum 300; PStr "Water"] < 5)%nat) by (simpl; lia).
  split; [exact L|].
  exact (proj1 (StateProps_set_value_errors [PStr "T"; PNum 300; PStr "Water"] water) L).
Defined.


Lemma StateProps_constraints_status_pinned_quality_witness :
  length (cset water_TQ) = 2%nat /\ fluid_is_none water_TQ = false /\
  mem "quality" (cset water_TQ) = true /\ attrs water_TQ !! "_quality" = Some (PNum 1) /\
  exists d, StateProps_constraints PropsSI_zero (inr "6.4.1"%string) water_TQ = (inr d, water_TQ) /\
    cd_is_complete d = true /\ cd_edition d = PStr "6.4.1" /\
    cd_status d = PStr "saturated_vapor".
Proof.
  assert (L : length (cset water_TQ) = 2%nat) by (vm_compute; reflexivity).
  assert (F : fluid_is_none water_TQ = false) by (vm_compute; reflexivity).
  assert (Mq : mem "quality" (cset water_TQ) = true) by (vm_compute; reflexivity).
  assert (Q1 : attrs water_TQ !! "_quality" = Some (PNum 1)) by (vm_compute; reflexivity).
  split; [exact L|]. split; [exact F|]. split; [exact Mq|]. split; [exact Q1|].
  exact (StateProps_constraints_status_pinned_quality PropsSI_zero (inr "6.4.1"%string)
           water_TQ 1 L F Mq Q1).
Defined.

Lemma StateProps_constraints_status_from_quality_witness :
  (length (cset water_TP) = 2%nat /\ fluid_is_none water_TP = false /\
   mem "quality" (cset water_TP) = false /\
   fst (StateProps_read PropsSI_zero PR_quality water_TP) = inr (PNum 0) /\
   exists d, StateProps_constraints PropsSI_zero (inr "6.4.1"%string) water_TP = (inr d, water_TP) /\
     cd_status d = PStr "two_phase") /\
  (length (cset water_PD) = 2%nat /\ fluid_is_none water_PD = false /\
   mem "quality" (cset water_PD) = false /\
   fst (StateProps_read PropsSI_liquid PR_quality water_PD) = inr (PNum (-1)) /\
   StateProps_get_prop PropsSI_liquid "pcrit" water_PD = (inr 22064000, water_PD) /\
   mem "tempk" (cset water_PD) = false /\ mem "tempc" (cset water_PD) = false /\
   exists d, StateProps_constraints PropsSI_liquid (inr "6.4.1"%string) water_PD = (inr d, water_PD) /\
     cd_is_complete d = true /\ cd_status d = PNone).
Proof.
  assert (L1 : length (cset water_TP) = 2%nat) by (vm_compute; reflexivity).
  assert (F1 : fluid_is_none water_TP = false) by (vm_compute; reflexivity).
  assert (M1 : mem "quality" (cset water_TP) = false) by (vm_compute; reflexivity).
  assert (R1 : fst (StateProps_read PropsSI_zero PR_quality water_TP) = inr (PNum 0))
    by (vm_compute; reflexivity).
  assert (Q1 : py_eq_num (PNum 0) (-1) = false) by reflexivity.
  assert (L2 : length (cset water_PD) = 2%nat) by (vm_compute; reflexivity).
  assert (F2 : fluid_is_none water_PD = false) by (vm_compute; reflexivity).
  assert (M2 : mem "quality" (cset water_PD) = false) by (vm_compute; reflexivity).
  assert (R2 : fst (StateProps_read PropsSI_liquid PR_quality water_PD) = inr (PNum (-1)))
    by (vm_compute; reflexivity).
  assert (Q2 : py_eq_num (PNum (-1)) (-1) = true) by reflexivity.
  assert (Pm : mem "press" (cset water_PD) = true) by (vm_compute; reflexivity).
  assert (Pv : attrs water_PD !! "_press" = Some (PNum 101325)) by (vm_compute; reflexivity).
  assert (Pc : StateProps_get_prop PropsSI_liquid "pcrit" water_PD = (inr 22064000, water_PD))
    by (vm_compute; reflexivity).
  assert (G : qlt 22064000 101325 = false) by reflexivity.
  assert (Tk : mem "tempk" (cset water_PD) = false) by (vm_compute; reflexivity).
  assert (Tc : mem "tempc" (cset water_PD) = false) by (vm_compute; reflexivity).
  split.
  - split; [exact L1|]. split; [exact F1|]. split; [exact M1|]. split; [exact R1|].
    exact (proj1 (proj2 (StateProps_constraints_status_from_quality PropsSI_zero
             (inr "6.4.1"%string) water_TP L1 F1 M1)) (PNum 0) R1 Q1).
  - split; [exact L2|]. split; [exact F2|]. split; [exact M2|]. split; [exact R2|].
    split; [exact Pc|]. split; [exact Tk|]. split; [exact Tc|].
    exact (proj2 (proj2 (proj2 (StateProps_constraints_status_from_quality PropsSI_liquid
             (inr "6.4.1"%string) water_PD L2 F2 M2)))
             (PNum (-1)) 101325 22064000 R2 Q2 Pm Pv Pc G Tk Tc).
Defined.

(** An oracle answering 2 to every query. *)
Definition HAPropsSI_two : string -> list (string * pyval) -> exc + Q :=
  fun _ _ => inr 2.

Lemma StateHA_density_reciprocal_of_vol_witness :
  length (cset ha_PTR) = 3%nat /\ mem "vol" (cset ha_PTR) = false /\
  mem "density" (cset ha_PTR) = false /\
  StateHA_read HAPropsSI_two HA_vol ha_PTR = (inr (PNum 2), ha_PTR) /\
  StateHA_read HAPropsSI_two HA_density ha_PTR =
    (if Qeq_bool 2 0 then (inl ZeroDivisionError, ha_PTR) else (inr (PNum (1 / 2)), ha_PTR)).
Proof.
  assert (L : length (cset ha_PTR) = 3%nat) by (vm_compute; reflexivity).
  assert (V : mem "vol" (cset ha_PTR) = false) by (vm_compute; reflexivity).
  assert (D : mem "density" (cset ha_PTR) = false) by (vm_compute; reflexivity).
  assert (R : StateHA_read HAPropsSI_two HA_vol ha_PTR = (inr (PNum 2), ha_PTR))
    by (vm_compute; reflexivity).
  split; [exact L|]. split; [exact V|]. split; [exact D|]. split; [exact R|].
  exact (proj1 (StateHA_density_reciprocal_of_vol HAPropsSI_two ha_PTR L V D) 2 R).
Defined.
